(** * Tile bookkeeping of harp-mapview: a shallow embedding of
    [@here/harp-mapview/lib/Tile.ts].

    The class [Tile] is embedded as a record of its fields together with one
    function per accessor or method.  Objects that the tile only refers to
    (loaders, textures, geometries, materials, label instances) are
    represented by their identity.  Calls into collaborators that leave the
    tile (cancel, dispose, requestUpdate, ...) are recorded in a trace of
    events.  The label store [TextElementGroupPriorityList] is an object with
    identity: it lives in a heap and the tile holds a reference to it, so that
    a renderer keeping an older reference can be described too.

    Frame numbers are integers.  Of [load] the two callbacks are embedded and
    the settlement of the promise is an input.  Not embedded: the deprecated
    [userTextElements] accessors, [update], [computeWorldOffsetX] and the
    fields no method of the class writes ([dependencies], [levelOffset],
    [skipRendering], [offset], [tileKey], the text style cache reference). *)

From Stdlib Require Import ZArith List Bool Lia String.
From stdpp Require Import base option list gmap.

Local Open Scope Z_scope.

(** ** References to collaborating objects *)

Abbreviation loc := nat (only parsing).

Abbreviation ITileLoader := nat (only parsing).
Abbreviation TileGeometryLoader := nat (only parsing).
Abbreviation AnimatedExtrusionTileHandler := nat (only parsing).
Abbreviation PathBlockingElement := nat (only parsing).
Abbreviation TextPathGeometry := nat (only parsing).
Abbreviation Texture := nat (only parsing).
Abbreviation BufferGeometry := nat (only parsing).
Abbreviation Geometry := nat (only parsing).

(** [CopyrightInfo]: the tile only ever builds [{ id }]. *)
Record CopyrightInfo : Type := mkCopyrightInfo { ci_id : string }.

(** ** Renderable objects ([THREE.Object3D] as far as [Tile] looks at it) *)

Inductive MaterialProperty : Type :=
| PropTexture (texture : Texture)
| PropOther.

Record Material : Type := mkMaterial {
  material_id : nat;
  ownProperties : list (string * MaterialProperty)
}.

(** [material?: THREE.Material[] | THREE.Material] *)
Inductive MaterialSlot : Type :=
| MaterialArray (ms : list (option Material))
| MaterialSingle (m : Material).

#[warnings="-register-all"] Inductive TileObject : Type := mkTileObject {
  visible : bool;
  geometry : option BufferGeometry;
  geometries : option (list BufferGeometry);
  material : option MaterialSlot;
  children : list TileObject
}.

(** [Object3D.traverse(callback)]: the callback runs on the object itself and
    then on every descendant, depth first. *)
Fixpoint traverse (o : TileObject) : list TileObject :=
  o :: (fix traverse_all (cs : list TileObject) : list TileObject :=
          match cs with
          | [] => []
          | c :: cs' => traverse c ++ traverse_all cs'
          end) (children o).

(** ** Resource information *)

Record TileResourceInfo : Type := mkTileResourceInfo {
  heapSize : Z;
  gpuSize : Z;
  num3dObjects : Z;
  numTextElements : Z;
  numUserTextElements : Z
}.

(** The accumulator [{ heapSize, gpuSize }] handed to
    [MapViewUtils.estimateObject3dSize]. *)
Record MemoryUsage : Type := mkMemoryUsage {
  mu_heapSize : Z;
  mu_gpuSize : Z
}.

Record TileInfo : Type := mkTileInfo { numBytes : Z }.

(** ** The label store *)

(** A label as the store sees it: its identity and its current [priority]. *)
Record TextElement : Type := mkTextElement {
  te_ref : nat;
  priority : Z
}.

Record TextElementGroup : Type := mkTextElementGroup {
  group_priority : Z;
  elements : list nat
}.

Record TextElementGroupPriorityList : Type := mkTextElementGroupPriorityList {
  groups : gmap Z TextElementGroup
}.

(** Modelled from the spec: [text/TextElementGroupPriorityList.ts] is not among
    the sources.  A fresh store has no group. *)
Definition tegpl_new : TextElementGroupPriorityList :=
  {| groups := ∅ |}.

(** Modelled from the spec: [add(label)] "inserts into the group keyed by the
    label's priority (creating the group if absent)". *)
Definition tegpl_add (te : TextElement) (l : TextElementGroupPriorityList)
  : TextElementGroupPriorityList :=
  let g := default (mkTextElementGroup (priority te) []) (groups l !! priority te) in
  {| groups := <[priority te := mkTextElementGroup (group_priority g)
                                  (elements g ++ [te_ref te])]> (groups l) |}.

(** [Array.indexOf] followed by [splice]: the first occurrence goes. *)
Fixpoint remove_first (x : nat) (xs : list nat) : option (list nat) :=
  match xs with
  | [] => None
  | y :: ys =>
      if Nat.eqb x y then Some ys
      else match remove_first x ys with
           | Some ys' => Some (y :: ys')
           | None => None
           end
  end.

(** Modelled from the spec: [remove(label)] "removes from the matching-priority
    group only if the label's priority field still matches the priority it was
    inserted under; returns false otherwise or if not found".  The group looked
    up is the one of the label's current priority. *)
Definition tegpl_remove (te : TextElement) (l : TextElementGroupPriorityList)
  : bool * TextElementGroupPriorityList :=
  match groups l !! priority te with
  | None => (false, l)
  | Some g =>
      match remove_first (te_ref te) (elements g) with
      | None => (false, l)
      | Some es =>
          (true, {| groups := <[priority te := mkTextElementGroup (group_priority g) es]>
                                (groups l) |})
      end
  end.

(** Modelled from the spec: [clear()] "empties all groups". *)
Definition tegpl_clear (l : TextElementGroupPriorityList) : TextElementGroupPriorityList :=
  {| groups := ∅ |}.

(** Modelled from the spec: the number of labels in all priority groups, the
    sum that [computeResourceInfo] also forms over [groups]. *)
Definition tegpl_count (l : TextElementGroupPriorityList) : Z :=
  map_fold (fun _ g n => n + Z.of_nat (length (elements g))) 0 (groups l).

(** Modelled from the spec: [clone()] "produces a new store with independent
    group objects but referencing the same label instances".  A store is kept
    by value in the heap, so the clone has the contents of its original; it is
    the reference to it that is new (see [heap_clone]). *)
Definition tegpl_clone (l : TextElementGroupPriorityList) : TextElementGroupPriorityList :=
  {| groups := (fun g => mkTextElementGroup (group_priority g) (elements g)) <$> groups l |}.

(** ** Feature data *)

(** [TileFeatureData], without [geometryType], which no function here reads. *)
Record TileFeatureData : Type := mkTileFeatureData {
  starts : option (list Z);
  objInfos : option (list (option nat))
}.

Definition MINIMUM_SMALL_OBJECT_SIZE_ESTIMATION : Z := 16.
Definition MINIMUM_OBJECT_SIZE_ESTIMATION : Z := 100.

(** [getFeatureDataSize] *)
Definition getFeatureDataSize (featureData : TileFeatureData) : Z :=
  let numBytes := MINIMUM_OBJECT_SIZE_ESTIMATION in
  let numBytes :=
    match starts featureData with
    | Some a => numBytes + Z.of_nat (length a) * 8
    | None => numBytes
    end in
  let numBytes :=
    match objInfos featureData with
    | Some a => numBytes + Z.of_nat (length a) * MINIMUM_SMALL_OBJECT_SIZE_ESTIMATION
    | None => numBytes
    end in
  numBytes.

(** An optional array has no element when it is absent or empty. *)
Definition no_element {A : Type} (a : option (list A)) : Prop :=
  a = None \/ a = Some [].

(** ** Loader states *)

Inductive TileLoaderState : Type :=
| Initialized
| Loading
| Loaded
| Decoding
| Ready
| Canceled
| Failed.

(** ** What [clear] visits *)

(** The materials in the [material] slot of an object. *)
Definition materials_of (object : TileObject) : list Material :=
  match material object with
  | Some (MaterialSingle m) => [m]
  | Some (MaterialArray ms) =>
      flat_map (fun om => match om with Some m => [m] | None => [] end) ms
  | None => []
  end.

(** The textures among the own properties of a material. *)
Definition textures_of (m : Material) : list Texture :=
  flat_map
    (fun '(_, materialProperty) =>
       match materialProperty with
       | PropTexture texture => [texture]
       | PropOther => []
       end)
    (ownProperties m).

(** ** Numbers, boxes and the decoded payload *)

Section TileModel.

(** Elevations, heights, areas and box coordinates are JavaScript numbers.
    [Tile] copies them, adds two of them and compares them with [===]; nothing
    below depends on more than that, so the number type and these operations
    are left open. *)
Context {num : Type}.
Variable num_lit : Z -> num.
Variable num_add : num -> num -> num.
Variable num_strict_eq : num -> num -> bool.

(** [CalculationStatus] of [ElevationRangeSource.ts], a tag compared with
    [===]. *)
Context {CalculationStatus : Type} `{EqDecision CalculationStatus}.

Record Vector3 : Type := mkVector3 { x : num; y : num; z : num }.

Record OrientedBox3 : Type := mkOrientedBox3 {
  position : Vector3;
  xAxis : Vector3;
  yAxis : Vector3;
  zAxis : Vector3;
  extents : Vector3
}.

Record GeoCoordinates : Type := mkGeoCoordinates {
  latitude : num;
  longitude : num;
  altitude : option num
}.

Record GeoBox : Type := mkGeoBox {
  southWest : GeoCoordinates;
  northEast : GeoCoordinates
}.

Record ElevationRange : Type := mkElevationRange {
  minElevation : num;
  maxElevation : num;
  calculationStatus : option CalculationStatus
}.

(** The parts of [DecodedTile] that [Tile] reads. *)
Record DecodedTile : Type := mkDecodedTile {
  dt_geometries : list Geometry;
  dt_boundingBox : option OrientedBox3;
  dt_maxGeometryHeight : option num;
  dt_copyrightHolderIds : option (list string);
  dt_tileInfo : option TileInfo;
  dt_decodeTime : option num
}.

(** The projection service: [projection.projectBox(geoBox, result)] writes the
    projected box into [result]. *)
Variable projectBox : GeoBox -> OrientedBox3 -> OrientedBox3.

(** [MapViewUtils.estimateObject3dSize(object, size, visitedObjects)] updates
    the accumulator and the map of visited uuids. *)
Variable estimateObject3dSize :
  TileObject -> MemoryUsage * gmap string bool -> MemoryUsage * gmap string bool.

(** [PerformanceStatistics.instance.enabled] *)
Variable statsEnabled : bool.

(** ** Calls that leave the tile *)

Inductive Event : Type :=
| TileLoaderCancel (l : ITileLoader)
| TileLoaderUpdatePriority (l : ITileLoader) (area : num)
| TileGeometryLoaderDispose (g : TileGeometryLoader)
| GeometryDispose (g : BufferGeometry)
| TextureDispose (t : Texture)
| MaterialDispose (m : nat)
| AnimatedExtrusionTileHandlerDispose (h : AnimatedExtrusionTileHandler)
| TextStyleCacheClear
| StatsAddValue (name : string) (value : num)
| DataSourceRequestUpdate.

(** ** The tile *)

Record Tile : Type := mkTile {
  objects : list TileObject;
  geoBox : GeoBox;
  copyrightInfo : option (list CopyrightInfo);
  frameNumLastRequested : Z;
  frameNumVisible : Z;
  frameNumLastVisible : Z;
  numFramesVisible : Z;
  visibilityCounter : Z;
  preparedTextPaths : option (list TextPathGeometry);
  m_boundingBox : OrientedBox3;
  m_disposed : bool;
  m_forceHasGeometry : option bool;
  m_tileLoader : option ITileLoader;
  m_decodedTile : option DecodedTile;
  m_tileGeometryLoader : option TileGeometryLoader;
  m_textElementGroups : loc;
  m_pathBlockingElements : list PathBlockingElement;
  m_textElementsChanged : option bool;
  m_worldCenter : Vector3;
  m_visibleArea : num;
  m_elevationRange : ElevationRange;
  m_maxGeometryHeight : option num;
  m_resourceInfo : option TileResourceInfo;
  m_ownedTextures : gset Texture;
  m_animatedExtrusionTileHandler : option AnimatedExtrusionTileHandler
}.

Definition set_objects (v : list TileObject) (t : Tile) : Tile :=
  {| objects := v; geoBox := geoBox t; copyrightInfo := copyrightInfo t;
     frameNumLastRequested := frameNumLastRequested t;
     frameNumVisible := frameNumVisible t; frameNumLastVisible := frameNumLastVisible t;
     numFramesVisible := numFramesVisible t; visibilityCounter := visibilityCounter t;
     preparedTextPaths := preparedTextPaths t; m_boundingBox := m_boundingBox t;
     m_disposed := m_disposed t; m_forceHasGeometry := m_forceHasGeometry t;
     m_tileLoader := m_tileLoader t; m_decodedTile := m_decodedTile t;
     m_tileGeometryLoader := m_tileGeometryLoader t;
     m_textElementGroups := m_textElementGroups t;
     m_pathBlockingElements := m_pathBlockingElements t;
     m_textElementsChanged := m_textElementsChanged t; m_worldCenter := m_worldCenter t;
     m_visibleArea := m_visibleArea t; m_elevationRange := m_elevationRange t;
     m_maxGeometryHeight := m_maxGeometryHeight t; m_resourceInfo := m_resourceInfo t;
     m_ownedTextures := m_ownedTextures t;
     m_animatedExtrusionTileHandler := m_animatedExtrusionTileHandler t |}.

Definition set_geoBox (v : GeoBox) (t : Tile) : Tile :=
  {| objects := objects t; geoBox := v; copyrightInfo := copyrightInfo t;
     frameNumLastRequested := frameNumLastRequested t;
     frameNumVisible := frameNumVisible t; frameNumLastVisible := frameNumLastVisible t;
     numFramesVisible := numFramesVisible t; visibilityCounter := visibilityCounter t;
     preparedTextPaths := preparedTextPaths t; m_boundingBox := m_boundingBox t;
     m_disposed := m_disposed t; m_forceHasGeometry := m_forceHasGeometry t;
     m_tileLoader := m_tileLoader t; m_decodedTile := m_decodedTile t;
     m_tileGeometryLoader := m_tileGeometryLoader t;
     m_textElementGroups := m_textElementGroups t;
     m_pathBlockingElements := m_pathBlockingElements t;
     m_textElementsChanged := m_textElementsChanged t; m_worldCenter := m_worldCenter t;
     m_visibleArea := m_visibleArea t; m_elevationRange := m_elevationRange t;
     m_maxGeometryHeight := m_maxGeometryHeight t; m_resourceInfo := m_resourceInfo t;
     m_ownedTextures := m_ownedTextures t;
     m_animatedExtrusionTileHandler := m_animatedExtrusionTileHandler t |}.

Definition set_copyrightInfo (v : option (list CopyrightInfo)) (t : Tile) : Tile :=
  {| objects := objects t; geoBox := geoBox t; copyrightInfo := v;
     frameNumLastRequested := frameNumLastRequested t;
     frameNumVisible := frameNumVisible t; frameNumLastVisible := frameNumLastVisible t;
     numFramesVisible := numFramesVisible t; visibilityCounter := visibilityCounter t;
     preparedTextPaths := preparedTextPaths t; m_boundingBox := m_boundingBox t;
     m_disposed := m_disposed t; m_forceHasGeometry := m_forceHasGeometry t;
     m_tileLoader := m_tileLoader t; m_decodedTile := m_decodedTile t;
     m_tileGeometryLoader := m_tileGeometryLoader t;
     m_textElementGroups := m_textElementGroups t;
     m_pathBlockingElements := m_pathBlockingElements t;
     m_textElementsChanged := m_textElementsChanged t; m_worldCenter := m_worldCenter t;
     m_visibleArea := m_visibleArea t; m_elevationRange := m_elevationRange t;
     m_maxGeometryHeight := m_maxGeometryHeight t; m_resourceInfo := m_resourceInfo t;
     m_ownedTextures := m_ownedTextures t;
     m_animatedExtrusionTileHandler := m_animatedExtrusionTileHandler t |}.

Definition set_frameNumLastRequested (v : Z) (t : Tile) : Tile :=
  {| objects := objects t; geoBox := geoBox t; copyrightInfo := copyrightInfo t;
     frameNumLastRequested := v; frameNumVisible := frameNumVisible t;
     frameNumLastVisible := frameNumLastVisible t; numFramesVisible := numFramesVisible t;
     visibilityCounter := visibilityCounter t; preparedTextPaths := preparedTextPaths t;
     m_boundingBox := m_boundingBox t; m_disposed := m_disposed t;
     m_forceHasGeometry := m_forceHasGeometry t; m_tileLoader := m_tileLoader t;
     m_decodedTile := m_decodedTile t; m_tileGeometryLoader := m_tileGeometryLoader t;
     m_textElementGroups := m_textElementGroups t;
     m_pathBlockingElements := m_pathBlockingElements t;
     m_textElementsChanged := m_textElementsChanged t; m_worldCenter := m_worldCenter t;
     m_visibleArea := m_visibleArea t; m_elevationRange := m_elevationRange t;
     m_maxGeometryHeight := m_maxGeometryHeight t; m_resourceInfo := m_resourceInfo t;
     m_ownedTextures := m_ownedTextures t;
     m_animatedExtrusionTileHandler := m_animatedExtrusionTileHandler t |}.

Definition set_visibilityCounter (v : Z) (t : Tile) : Tile :=
  {| objects := objects t; geoBox := geoBox t; copyrightInfo := copyrightInfo t;
     frameNumLastRequested := frameNumLastRequested t;
     frameNumVisible := frameNumVisible t; frameNumLastVisible := frameNumLastVisible t;
     numFramesVisible := numFramesVisible t; visibilityCounter := v;
     preparedTextPaths := preparedTextPaths t; m_boundingBox := m_boundingBox t;
     m_disposed := m_disposed t; m_forceHasGeometry := m_forceHasGeometry t;
     m_tileLoader := m_tileLoader t; m_decodedTile := m_decodedTile t;
     m_tileGeometryLoader := m_tileGeometryLoader t;
     m_textElementGroups := m_textElementGroups t;
     m_pathBlockingElements := m_pathBlockingElements t;
     m_textElementsChanged := m_textElementsChanged t; m_worldCenter := m_worldCenter t;
     m_visibleArea := m_visibleArea t; m_elevationRange := m_elevationRange t;
     m_maxGeometryHeight := m_maxGeometryHeight t; m_resourceInfo := m_resourceInfo t;
     m_ownedTextures := m_ownedTextures t;
     m_animatedExtrusionTileHandler := m_animatedExtrusionTileHandler t |}.

Definition set_preparedTextPaths (v : option (list TextPathGeometry)) (t : Tile) : Tile :=
  {| objects := objects t; geoBox := geoBox t; copyrightInfo := copyrightInfo t;
     frameNumLastRequested := frameNumLastRequested t;
     frameNumVisible := frameNumVisible t; frameNumLastVisible := frameNumLastVisible t;
     numFramesVisible := numFramesVisible t; visibilityCounter := visibilityCounter t;
     preparedTextPaths := v; m_boundingBox := m_boundingBox t; m_disposed := m_disposed t;
     m_forceHasGeometry := m_forceHasGeometry t; m_tileLoader := m_tileLoader t;
     m_decodedTile := m_decodedTile t; m_tileGeometryLoader := m_tileGeometryLoader t;
     m_textElementGroups := m_textElementGroups t;
     m_pathBlockingElements := m_pathBlockingElements t;
     m_textElementsChanged := m_textElementsChanged t; m_worldCenter := m_worldCenter t;
     m_visibleArea := m_visibleArea t; m_elevationRange := m_elevationRange t;
     m_maxGeometryHeight := m_maxGeometryHeight t; m_resourceInfo := m_resourceInfo t;
     m_ownedTextures := m_ownedTextures t;
     m_animatedExtrusionTileHandler := m_animatedExtrusionTileHandler t |}.

Definition set_m_boundingBox (v : OrientedBox3) (t : Tile) : Tile :=
  {| objects := objects t; geoBox := geoBox t; copyrightInfo := copyrightInfo t;
     frameNumLastRequested := frameNumLastRequested t;
     frameNumVisible := frameNumVisible t; frameNumLastVisible := frameNumLastVisible t;
     numFramesVisible := numFramesVisible t; visibilityCounter := visibilityCounter t;
     preparedTextPaths := preparedTextPaths t; m_boundingBox := v;
     m_disposed := m_disposed t; m_forceHasGeometry := m_forceHasGeometry t;
     m_tileLoader := m_tileLoader t; m_decodedTile := m_decodedTile t;
     m_tileGeometryLoader := m_tileGeometryLoader t;
     m_textElementGroups := m_textElementGroups t;
     m_pathBlockingElements := m_pathBlockingElements t;
     m_textElementsChanged := m_textElementsChanged t; m_worldCenter := m_worldCenter t;
     m_visibleArea := m_visibleArea t; m_elevationRange := m_elevationRange t;
     m_maxGeometryHeight := m_maxGeometryHeight t; m_resourceInfo := m_resourceInfo t;
     m_ownedTextures := m_ownedTextures t;
     m_animatedExtrusionTileHandler := m_animatedExtrusionTileHandler t |}.

Definition set_m_disposed (v : bool) (t : Tile) : Tile :=
  {| objects := objects t; geoBox := geoBox t; copyrightInfo := copyrightInfo t;
     frameNumLastRequested := frameNumLastRequested t;
     frameNumVisible := frameNumVisible t; frameNumLastVisible := frameNumLastVisible t;
     numFramesVisible := numFramesVisible t; visibilityCounter := visibilityCounter t;
     preparedTextPaths := preparedTextPaths t; m_boundingBox := m_boundingBox t;
     m_disposed := v; m_forceHasGeometry := m_forceHasGeometry t;
     m_tileLoader := m_tileLoader t; m_decodedTile := m_decodedTile t;
     m_tileGeometryLoader := m_tileGeometryLoader t;
     m_textElementGroups := m_textElementGroups t;
     m_pathBlockingElements := m_pathBlockingElements t;
     m_textElementsChanged := m_textElementsChanged t; m_worldCenter := m_worldCenter t;
     m_visibleArea := m_visibleArea t; m_elevationRange := m_elevationRange t;
     m_maxGeometryHeight := m_maxGeometryHeight t; m_resourceInfo := m_resourceInfo t;
     m_ownedTextures := m_ownedTextures t;
     m_animatedExtrusionTileHandler := m_animatedExtrusionTileHandler t |}.

Definition set_m_forceHasGeometry (v : option bool) (t : Tile) : Tile :=
  {| objects := objects t; geoBox := geoBox t; copyrightInfo := copyrightInfo t;
     frameNumLastRequested := frameNumLastRequested t;
     frameNumVisible := frameNumVisible t; frameNumLastVisible := frameNumLastVisible t;
     numFramesVisible := numFramesVisible t; visibilityCounter := visibilityCounter t;
     preparedTextPaths := preparedTextPaths t; m_boundingBox := m_boundingBox t;
     m_disposed := m_disposed t; m_forceHasGeometry := v; m_tileLoader := m_tileLoader t;
     m_decodedTile := m_decodedTile t; m_tileGeometryLoader := m_tileGeometryLoader t;
     m_textElementGroups := m_textElementGroups t;
     m_pathBlockingElements := m_pathBlockingElements t;
     m_textElementsChanged := m_textElementsChanged t; m_worldCenter := m_worldCenter t;
     m_visibleArea := m_visibleArea t; m_elevationRange := m_elevationRange t;
     m_maxGeometryHeight := m_maxGeometryHeight t; m_resourceInfo := m_resourceInfo t;
     m_ownedTextures := m_ownedTextures t;
     m_animatedExtrusionTileHandler := m_animatedExtrusionTileHandler t |}.

Definition set_m_tileLoader (v : option ITileLoader) (t : Tile) : Tile :=
  {| objects := objects t; geoBox := geoBox t; copyrightInfo := copyrightInfo t;
     frameNumLastRequested := frameNumLastRequested t;
     frameNumVisible := frameNumVisible t; frameNumLastVisible := frameNumLastVisible t;
     numFramesVisible := numFramesVisible t; visibilityCounter := visibilityCounter t;
     preparedTextPaths := preparedTextPaths t; m_boundingBox := m_boundingBox t;
     m_disposed := m_disposed t; m_forceHasGeometry := m_forceHasGeometry t;
     m_tileLoader := v; m_decodedTile := m_decodedTile t;
     m_tileGeometryLoader := m_tileGeometryLoader t;
     m_textElementGroups := m_textElementGroups t;
     m_pathBlockingElements := m_pathBlockingElements t;
     m_textElementsChanged := m_textElementsChanged t; m_worldCenter := m_worldCenter t;
     m_visibleArea := m_visibleArea t; m_elevationRange := m_elevationRange t;
     m_maxGeometryHeight := m_maxGeometryHeight t; m_resourceInfo := m_resourceInfo t;
     m_ownedTextures := m_ownedTextures t;
     m_animatedExtrusionTileHandler := m_animatedExtrusionTileHandler t |}.

Definition set_m_decodedTile (v : option DecodedTile) (t : Tile) : Tile :=
  {| objects := objects t; geoBox := geoBox t; copyrightInfo := copyrightInfo t;
     frameNumLastRequested := frameNumLastRequested t;
     frameNumVisible := frameNumVisible t; frameNumLastVisible := frameNumLastVisible t;
     numFramesVisible := numFramesVisible t; visibilityCounter := visibilityCounter t;
     preparedTextPaths := preparedTextPaths t; m_boundingBox := m_boundingBox t;
     m_disposed := m_disposed t; m_forceHasGeometry := m_forceHasGeometry t;
     m_tileLoader := m_tileLoader t; m_decodedTile := v;
     m_tileGeometryLoader := m_tileGeometryLoader t;
     m_textElementGroups := m_textElementGroups t;
     m_pathBlockingElements := m_pathBlockingElements t;
     m_textElementsChanged := m_textElementsChanged t; m_worldCenter := m_worldCenter t;
     m_visibleArea := m_visibleArea t; m_elevationRange := m_elevationRange t;
     m_maxGeometryHeight := m_maxGeometryHeight t; m_resourceInfo := m_resourceInfo t;
     m_ownedTextures := m_ownedTextures t;
     m_animatedExtrusionTileHandler := m_animatedExtrusionTileHandler t |}.

Definition set_m_tileGeometryLoader (v : option TileGeometryLoader) (t : Tile) : Tile :=
  {| objects := objects t; geoBox := geoBox t; copyrightInfo := copyrightInfo t;
     frameNumLastRequested := frameNumLastRequested t;
     frameNumVisible := frameNumVisible t; frameNumLastVisible := frameNumLastVisible t;
     numFramesVisible := numFramesVisible t; visibilityCounter := visibilityCounter t;
     preparedTextPaths := preparedTextPaths t; m_boundingBox := m_boundingBox t;
     m_disposed := m_disposed t; m_forceHasGeometry := m_forceHasGeometry t;
     m_tileLoader := m_tileLoader t; m_decodedTile := m_decodedTile t;
     m_tileGeometryLoader := v; m_textElementGroups := m_textElementGroups t;
     m_pathBlockingElements := m_pathBlockingElements t;
     m_textElementsChanged := m_textElementsChanged t; m_worldCenter := m_worldCenter t;
     m_visibleArea := m_visibleArea t; m_elevationRange := m_elevationRange t;
     m_maxGeometryHeight := m_maxGeometryHeight t; m_resourceInfo := m_resourceInfo t;
     m_ownedTextures := m_ownedTextures t;
     m_animatedExtrusionTileHandler := m_animatedExtrusionTileHandler t |}.

Definition set_m_textElementGroups (v : loc) (t : Tile) : Tile :=
  {| objects := objects t; geoBox := geoBox t; copyrightInfo := copyrightInfo t;
     frameNumLastRequested := frameNumLastRequested t;
     frameNumVisible := frameNumVisible t; frameNumLastVisible := frameNumLastVisible t;
     numFramesVisible := numFramesVisible t; visibilityCounter := visibilityCounter t;
     preparedTextPaths := preparedTextPaths t; m_boundingBox := m_boundingBox t;
     m_disposed := m_disposed t; m_forceHasGeometry := m_forceHasGeometry t;
     m_tileLoader := m_tileLoader t; m_decodedTile := m_decodedTile t;
     m_tileGeometryLoader := m_tileGeometryLoader t; m_textElementGroups := v;
     m_pathBlockingElements := m_pathBlockingElements t;
     m_textElementsChanged := m_textElementsChanged t; m_worldCenter := m_worldCenter t;
     m_visibleArea := m_visibleArea t; m_elevationRange := m_elevationRange t;
     m_maxGeometryHeight := m_maxGeometryHeight t; m_resourceInfo := m_resourceInfo t;
     m_ownedTextures := m_ownedTextures t;
     m_animatedExtrusionTileHandler := m_animatedExtrusionTileHandler t |}.

Definition set_m_pathBlockingElements (v : list PathBlockingElement) (t : Tile) : Tile :=
  {| objects := objects t; geoBox := geoBox t; copyrightInfo := copyrightInfo t;
     frameNumLastRequested := frameNumLastRequested t;
     frameNumVisible := frameNumVisible t; frameNumLastVisible := frameNumLastVisible t;
     numFramesVisible := numFramesVisible t; visibilityCounter := visibilityCounter t;
     preparedTextPaths := preparedTextPaths t; m_boundingBox := m_boundingBox t;
     m_disposed := m_disposed t; m_forceHasGeometry := m_forceHasGeometry t;
     m_tileLoader := m_tileLoader t; m_decodedTile := m_decodedTile t;
     m_tileGeometryLoader := m_tileGeometryLoader t;
     m_textElementGroups := m_textElementGroups t; m_pathBlockingElements := v;
     m_textElementsChanged := m_textElementsChanged t; m_worldCenter := m_worldCenter t;
     m_visibleArea := m_visibleArea t; m_elevationRange := m_elevationRange t;
     m_maxGeometryHeight := m_maxGeometryHeight t; m_resourceInfo := m_resourceInfo t;
     m_ownedTextures := m_ownedTextures t;
     m_animatedExtrusionTileHandler := m_animatedExtrusionTileHandler t |}.

Definition set_m_textElementsChanged (v : option bool) (t : Tile) : Tile :=
  {| objects := objects t; geoBox := geoBox t; copyrightInfo := copyrightInfo t;
     frameNumLastRequested := frameNumLastRequested t;
     frameNumVisible := frameNumVisible t; frameNumLastVisible := frameNumLastVisible t;
     numFramesVisible := numFramesVisible t; visibilityCounter := visibilityCounter t;
     preparedTextPaths := preparedTextPaths t; m_boundingBox := m_boundingBox t;
     m_disposed := m_disposed t; m_forceHasGeometry := m_forceHasGeometry t;
     m_tileLoader := m_tileLoader t; m_decodedTile := m_decodedTile t;
     m_tileGeometryLoader := m_tileGeometryLoader t;
     m_textElementGroups := m_textElementGroups t;
     m_pathBlockingElements := m_pathBlockingElements t; m_textElementsChanged := v;
     m_worldCenter := m_worldCenter t; m_visibleArea := m_visibleArea t;
     m_elevationRange := m_elevationRange t; m_maxGeometryHeight := m_maxGeometryHeight t;
     m_resourceInfo := m_resourceInfo t; m_ownedTextures := m_ownedTextures t;
     m_animatedExtrusionTileHandler := m_animatedExtrusionTileHandler t |}.

Definition set_m_worldCenter (v : Vector3) (t : Tile) : Tile :=
  {| objects := objects t; geoBox := geoBox t; copyrightInfo := copyrightInfo t;
     frameNumLastRequested := frameNumLastRequested t;
     frameNumVisible := frameNumVisible t; frameNumLastVisible := frameNumLastVisible t;
     numFramesVisible := numFramesVisible t; visibilityCounter := visibilityCounter t;
     preparedTextPaths := preparedTextPaths t; m_boundingBox := m_boundingBox t;
     m_disposed := m_disposed t; m_forceHasGeometry := m_forceHasGeometry t;
     m_tileLoader := m_tileLoader t; m_decodedTile := m_decodedTile t;
     m_tileGeometryLoader := m_tileGeometryLoader t;
     m_textElementGroups := m_textElementGroups t;
     m_pathBlockingElements := m_pathBlockingElements t;
     m_textElementsChanged := m_textElementsChanged t; m_worldCenter := v;
     m_visibleArea := m_visibleArea t; m_elevationRange := m_elevationRange t;
     m_maxGeometryHeight := m_maxGeometryHeight t; m_resourceInfo := m_resourceInfo t;
     m_ownedTextures := m_ownedTextures t;
     m_animatedExtrusionTileHandler := m_animatedExtrusionTileHandler t |}.

Definition set_m_visibleArea (v : num) (t : Tile) : Tile :=
  {| objects := objects t; geoBox := geoBox t; copyrightInfo := copyrightInfo t;
     frameNumLastRequested := frameNumLastRequested t;
     frameNumVisible := frameNumVisible t; frameNumLastVisible := frameNumLastVisible t;
     numFramesVisible := numFramesVisible t; visibilityCounter := visibilityCounter t;
     preparedTextPaths := preparedTextPaths t; m_boundingBox := m_boundingBox t;
     m_disposed := m_disposed t; m_forceHasGeometry := m_forceHasGeometry t;
     m_tileLoader := m_tileLoader t; m_decodedTile := m_decodedTile t;
     m_tileGeometryLoader := m_tileGeometryLoader t;
     m_textElementGroups := m_textElementGroups t;
     m_pathBlockingElements := m_pathBlockingElements t;
     m_textElementsChanged := m_textElementsChanged t; m_worldCenter := m_worldCenter t;
     m_visibleArea := v; m_elevationRange := m_elevationRange t;
     m_maxGeometryHeight := m_maxGeometryHeight t; m_resourceInfo := m_resourceInfo t;
     m_ownedTextures := m_ownedTextures t;
     m_animatedExtrusionTileHandler := m_animatedExtrusionTileHandler t |}.

Definition set_m_elevationRange (v : ElevationRange) (t : Tile) : Tile :=
  {| objects := objects t; geoBox := geoBox t; copyrightInfo := copyrightInfo t;
     frameNumLastRequested := frameNumLastRequested t;
     frameNumVisible := frameNumVisible t; frameNumLastVisible := frameNumLastVisible t;
     numFramesVisible := numFramesVisible t; visibilityCounter := visibilityCounter t;
     preparedTextPaths := preparedTextPaths t; m_boundingBox := m_boundingBox t;
     m_disposed := m_disposed t; m_forceHasGeometry := m_forceHasGeometry t;
     m_tileLoader := m_tileLoader t; m_decodedTile := m_decodedTile t;
     m_tileGeometryLoader := m_tileGeometryLoader t;
     m_textElementGroups := m_textElementGroups t;
     m_pathBlockingElements := m_pathBlockingElements t;
     m_textElementsChanged := m_textElementsChanged t; m_worldCenter := m_worldCenter t;
     m_visibleArea := m_visibleArea t; m_elevationRange := v;
     m_maxGeometryHeight := m_maxGeometryHeight t; m_resourceInfo := m_resourceInfo t;
     m_ownedTextures := m_ownedTextures t;
     m_animatedExtrusionTileHandler := m_animatedExtrusionTileHandler t |}.

Definition set_m_maxGeometryHeight (v : option num) (t : Tile) : Tile :=
  {| objects := objects t; geoBox := geoBox t; copyrightInfo := copyrightInfo t;
     frameNumLastRequested := frameNumLastRequested t;
     frameNumVisible := frameNumVisible t; frameNumLastVisible := frameNumLastVisible t;
     numFramesVisible := numFramesVisible t; visibilityCounter := visibilityCounter t;
     preparedTextPaths := preparedTextPaths t; m_boundingBox := m_boundingBox t;
     m_disposed := m_disposed t; m_forceHasGeometry := m_forceHasGeometry t;
     m_tileLoader := m_tileLoader t; m_decodedTile := m_decodedTile t;
     m_tileGeometryLoader := m_tileGeometryLoader t;
     m_textElementGroups := m_textElementGroups t;
     m_pathBlockingElements := m_pathBlockingElements t;
     m_textElementsChanged := m_textElementsChanged t; m_worldCenter := m_worldCenter t;
     m_visibleArea := m_visibleArea t; m_elevationRange := m_elevationRange t;
     m_maxGeometryHeight := v; m_resourceInfo := m_resourceInfo t;
     m_ownedTextures := m_ownedTextures t;
     m_animatedExtrusionTileHandler := m_animatedExtrusionTileHandler t |}.

Definition set_m_resourceInfo (v : option TileResourceInfo) (t : Tile) : Tile :=
  {| objects := objects t; geoBox := geoBox t; copyrightInfo := copyrightInfo t;
     frameNumLastRequested := frameNumLastRequested t;
     frameNumVisible := frameNumVisible t; frameNumLastVisible := frameNumLastVisible t;
     numFramesVisible := numFramesVisible t; visibilityCounter := visibilityCounter t;
     preparedTextPaths := preparedTextPaths t; m_boundingBox := m_boundingBox t;
     m_disposed := m_disposed t; m_forceHasGeometry := m_forceHasGeometry t;
     m_tileLoader := m_tileLoader t; m_decodedTile := m_decodedTile t;
     m_tileGeometryLoader := m_tileGeometryLoader t;
     m_textElementGroups := m_textElementGroups t;
     m_pathBlockingElements := m_pathBlockingElements t;
     m_textElementsChanged := m_textElementsChanged t; m_worldCenter := m_worldCenter t;
     m_visibleArea := m_visibleArea t; m_elevationRange := m_elevationRange t;
     m_maxGeometryHeight := m_maxGeometryHeight t; m_resourceInfo := v;
     m_ownedTextures := m_ownedTextures t;
     m_animatedExtrusionTileHandler := m_animatedExtrusionTileHandler t |}.

Definition set_m_ownedTextures (v : gset Texture) (t : Tile) : Tile :=
  {| objects := objects t; geoBox := geoBox t; copyrightInfo := copyrightInfo t;
     frameNumLastRequested := frameNumLastRequested t;
     frameNumVisible := frameNumVisible t; frameNumLastVisible := frameNumLastVisible t;
     numFramesVisible := numFramesVisible t; visibilityCounter := visibilityCounter t;
     preparedTextPaths := preparedTextPaths t; m_boundingBox := m_boundingBox t;
     m_disposed := m_disposed t; m_forceHasGeometry := m_forceHasGeometry t;
     m_tileLoader := m_tileLoader t; m_decodedTile := m_decodedTile t;
     m_tileGeometryLoader := m_tileGeometryLoader t;
     m_textElementGroups := m_textElementGroups t;
     m_pathBlockingElements := m_pathBlockingElements t;
     m_textElementsChanged := m_textElementsChanged t; m_worldCenter := m_worldCenter t;
     m_visibleArea := m_visibleArea t; m_elevationRange := m_elevationRange t;
     m_maxGeometryHeight := m_maxGeometryHeight t; m_resourceInfo := m_resourceInfo t;
     m_ownedTextures := v;
     m_animatedExtrusionTileHandler := m_animatedExtrusionTileHandler t |}.

Definition set_m_animatedExtrusionTileHandler (v : option AnimatedExtrusionTileHandler) (t : Tile) : Tile :=
  {| objects := objects t; geoBox := geoBox t; copyrightInfo := copyrightInfo t;
     frameNumLastRequested := frameNumLastRequested t;
     frameNumVisible := frameNumVisible t; frameNumLastVisible := frameNumLastVisible t;
     numFramesVisible := numFramesVisible t; visibilityCounter := visibilityCounter t;
     preparedTextPaths := preparedTextPaths t; m_boundingBox := m_boundingBox t;
     m_disposed := m_disposed t; m_forceHasGeometry := m_forceHasGeometry t;
     m_tileLoader := m_tileLoader t; m_decodedTile := m_decodedTile t;
     m_tileGeometryLoader := m_tileGeometryLoader t;
     m_textElementGroups := m_textElementGroups t;
     m_pathBlockingElements := m_pathBlockingElements t;
     m_textElementsChanged := m_textElementsChanged t; m_worldCenter := m_worldCenter t;
     m_visibleArea := m_visibleArea t; m_elevationRange := m_elevationRange t;
     m_maxGeometryHeight := m_maxGeometryHeight t; m_resourceInfo := m_resourceInfo t;
     m_ownedTextures := m_ownedTextures t; m_animatedExtrusionTileHandler := v |}.

(** The tile, the heap of label stores and the calls made so far. *)
Record State : Type := mkState {
  tile : Tile;
  heap : gmap loc TextElementGroupPriorityList;
  trace : list Event
}.

Definition with_tile (f : Tile -> Tile) (s : State) : State :=
  {| tile := f (tile s); heap := heap s; trace := trace s |}.

Definition emit (es : list Event) (s : State) : State :=
  {| tile := tile s; heap := heap s; trace := trace s ++ es |}.

(** A method call on the store behind reference [l]. *)
Definition heap_update (l : loc) (f : TextElementGroupPriorityList -> TextElementGroupPriorityList)
  (s : State) : State :=
  {| tile := tile s; heap := alter f l (heap s); trace := trace s |}.

Definition heap_read (l : loc) (s : State) : TextElementGroupPriorityList :=
  default tegpl_new (heap s !! l).

(** [store.clone()]: a new object, at a reference not in use. *)
Definition heap_clone (l : loc) (s : State) : loc * State :=
  let l' := fresh (dom (heap s)) in
  (l', {| tile := tile s;
          heap := <[l' := tegpl_clone (heap_read l s)]> (heap s);
          trace := trace s |}).

(** What a failed [assert] leaves behind is the state reached so far. *)
Inductive Outcome : Type :=
| Returns (s : State)
| Throws (s : State).

Definition outcome_state (o : Outcome) : State :=
  match o with
  | Returns s => s
  | Throws s => s
  end.

(** ** Visibility *)

(** [get isVisible], with [frameNumber] the value of
    [this.dataSource.mapView.frameNumber]. *)
Definition isVisible (frameNumber : Z) (t : Tile) : bool :=
  frameNumLastRequested t >=? frameNumber - 1.

(** [set isVisible] *)
Definition set_isVisible (frameNumber : Z) (visible : bool) (t : Tile) : Tile :=
  set_frameNumLastRequested (if visible then frameNumber else -1) t.

(** [resetVisibilityCounter] *)
Definition resetVisibilityCounter (t : Tile) : Tile :=
  set_visibilityCounter (-1) t.

(** ** Resource information *)

(** [invalidateResourceInfo] *)
Definition invalidateResourceInfo (s : State) : State :=
  with_tile (set_m_resourceInfo None) s.

(** [get textElementGroups] *)
Definition textElementGroups (s : State) : loc :=
  m_textElementGroups (tile s).

(** The record that [computeResourceInfo] builds. *)
Definition resourceInfoOf (s : State) : TileResourceInfo :=
  let '(num3dObjects, (aggregatedObjSize, _)) :=
    fold_left
      (fun '(n, acc) object =>
         ((if visible object then n + 1 else n), estimateObject3dSize object acc))
      (objects (tile s))
      (0, (mkMemoryUsage 0 0, (∅ : gmap string bool))) in
  let numTextElements :=
    map_fold (fun _ group n => n + Z.of_nat (length (elements group))) 0
      (groups (heap_read (textElementGroups s) s)) in
  let heapSize := numTextElements * 312 in
  let aggregatedObjSize :=
    match m_decodedTile (tile s) with
    | Some d =>
        match dt_tileInfo d with
        | Some info =>
            mkMemoryUsage (mu_heapSize aggregatedObjSize + numBytes info)
              (mu_gpuSize aggregatedObjSize)
        | None => aggregatedObjSize
        end
    | None => aggregatedObjSize
    end in
  {| heapSize := mu_heapSize aggregatedObjSize + heapSize;
     gpuSize := mu_gpuSize aggregatedObjSize;
     num3dObjects := num3dObjects;
     numTextElements := numTextElements;
     numUserTextElements := 0 |}.

(** [computeResourceInfo] *)
Definition computeResourceInfo (s : State) : State :=
  with_tile (set_m_resourceInfo (Some (resourceInfoOf s))) s.

(** [getResourceInfo]: the cached record when there is one. *)
Definition getResourceInfo (s : State) : TileResourceInfo * State :=
  match m_resourceInfo (tile s) with
  | Some info => (info, s)
  | None => (resourceInfoOf s, computeResourceInfo s)
  end.


(** [addOwnedTexture] *)
Definition addOwnedTexture (texture : Texture) (t : Tile) : Tile :=
  set_m_ownedTextures ({[ texture ]} ∪ m_ownedTextures t) t.

(** ** Labels *)

(** [get textElementsChanged] *)
Definition textElementsChanged (t : Tile) : bool :=
  default false (m_textElementsChanged t).

(** [set textElementsChanged] *)
Definition set_textElementsChanged (changed : bool) (t : Tile) : Tile :=
  set_m_textElementsChanged (Some changed) t.

(** The test [this.m_textElementsChanged === false]. *)
Definition textElementsChanged_is_false (t : Tile) : bool :=
  match m_textElementsChanged t with
  | Some false => true
  | _ => false
  end.

(** [this.m_textElementGroups = groups.clone()] *)
Definition replaceByClone (groups : loc) (s : State) : State :=
  let '(l', s') := heap_clone groups s in
  with_tile (set_m_textElementGroups l') s'.

(** [addTextElement] *)
Definition addTextElement (textElement : TextElement) (s : State) : State :=
  let s := heap_update (textElementGroups s) (tegpl_add textElement) s in
  let s :=
    if textElementsChanged_is_false (tile s)
    then replaceByClone (textElementGroups s) s
    else s in
  with_tile (set_textElementsChanged true) s.

(** [addBlockingElement] *)
Definition addBlockingElement (blockingElement : PathBlockingElement) (t : Tile) : Tile :=
  set_m_pathBlockingElements (m_pathBlockingElements t ++ [blockingElement]) t.

(** [removeTextElement] *)
Definition removeTextElement (textElement : TextElement) (s : State) : bool * State :=
  let groups := textElementGroups s in
  let '(removed, store) := tegpl_remove textElement (heap_read groups s) in
  if negb removed then (false, s)
  else
    let s := heap_update groups (fun _ => store) s in
    let s :=
      if textElementsChanged_is_false (tile s)
      then replaceByClone groups s
      else s in
    (true, with_tile (set_textElementsChanged true) s).

(** [hasTextElements] *)
Definition hasTextElements (s : State) : bool :=
  tegpl_count (heap_read (m_textElementGroups (tile s)) s) >? 0.

(** [clearTextElements] *)
Definition clearTextElements (s : State) : State :=
  if negb (hasTextElements s) then s
  else
    let s := with_tile (set_textElementsChanged true) s in
    let s := with_tile (set_m_pathBlockingElements []) s in
    heap_update (textElementGroups s) tegpl_clear s.

(** ** Bounds *)

(** [set visibleArea] *)
Definition set_visibleArea (area : num) (s : State) : State :=
  let s := with_tile (set_m_visibleArea area) s in
  match m_tileLoader (tile s) with
  | Some l => emit [TileLoaderUpdatePriority l area] s
  | None => s
  end.

(** [updateBoundingBox] *)
Definition updateBoundingBox (newBoundingBox : option OrientedBox3) (t : Tile) : Tile :=
  match newBoundingBox with
  | Some b =>
      let t := set_m_boundingBox b t in
      set_m_worldCenter (position (m_boundingBox t)) t
  | None => set_m_boundingBox (projectBox (geoBox t) (m_boundingBox t)) t
  end.

Definition set_altitude (a : num) (c : GeoCoordinates) : GeoCoordinates :=
  {| latitude := latitude c; longitude := longitude c; altitude := Some a |}.

(** [elevateGeoBox] *)
Definition elevateGeoBox (t : Tile) : Tile :=
  let southWest' := set_altitude (minElevation (m_elevationRange t)) (southWest (geoBox t)) in
  let northEast' :=
    set_altitude
      (num_add (maxElevation (m_elevationRange t))
         (default (num_lit 0) (m_maxGeometryHeight t)))
      (northEast (geoBox t)) in
  set_geoBox {| southWest := southWest'; northEast := northEast' |} t.

(** The guard of [set elevationRange]: the three fields are [===]. *)
Definition sameElevationRange (a b : ElevationRange) : bool :=
  num_strict_eq (minElevation a) (minElevation b)
  && num_strict_eq (maxElevation a) (maxElevation b)
  && bool_decide (calculationStatus a = calculationStatus b).

(** [this.decodedTile?.boundingBox === undefined] *)
Definition decodedBoundingBox_undefined (t : Tile) : bool :=
  match m_decodedTile t with
  | Some d => match dt_boundingBox d with Some _ => false | None => true end
  | None => true
  end.

(** [set elevationRange] *)
Definition set_elevationRange (elevationRange : ElevationRange) (s : State) : Outcome :=
  if sameElevationRange elevationRange (m_elevationRange (tile s)) then Returns s
  else
    let s :=
      with_tile
        (set_m_elevationRange
           {| minElevation := minElevation elevationRange;
              maxElevation := maxElevation elevationRange;
              calculationStatus := calculationStatus elevationRange |}) s in
    let s := with_tile elevateGeoBox s in
    match m_maxGeometryHeight (tile s) with
    | Some _ =>
        if decodedBoundingBox_undefined (tile s)
        then Returns (with_tile (updateBoundingBox None) s)
        else Throws s
    | None => Returns s
    end.

(** ** Geometry presence *)

(** [get hasGeometry] *)
Definition hasGeometry (t : Tile) : bool :=
  match m_forceHasGeometry t with
  | None => negb (Nat.eqb (length (objects t)) 0)
  | Some forced => forced
  end.

(** [forceHasGeometry] *)
Definition forceHasGeometry (value : option bool) (t : Tile) : Tile :=
  set_m_forceHasGeometry value t.

(** ** The decoded payload *)

(** [set decodedTile] *)
Definition set_decodedTile (decodedTile : option DecodedTile) (s : State) : State :=
  let s := with_tile (set_m_decodedTile decodedTile) s in
  let s := invalidateResourceInfo s in
  match decodedTile with
  | None => s
  | Some d =>
      let s :=
        if Nat.eqb (length (dt_geometries d)) 0
        then with_tile (forceHasGeometry (Some true)) s
        else s in
      let s :=
        with_tile
          (set_m_maxGeometryHeight
             (match dt_boundingBox d with
              | Some _ => None
              | None => Some (default (num_lit 0) (dt_maxGeometryHeight d))
              end)) s in
      let s := with_tile elevateGeoBox s in
      let s := with_tile (updateBoundingBox (dt_boundingBox d)) s in
      let s :=
        match dt_decodeTime d with
        | Some time =>
            if statsEnabled
            then emit [StatsAddValue "decode.decodingTime" time;
                       StatsAddValue "decode.decodedTiles" (num_lit 1)] s
            else s
        | None => s
        end in
      let s :=
        match dt_copyrightHolderIds d with
        | Some ids => with_tile (set_copyrightInfo (Some (map mkCopyrightInfo ids))) s
        | None => s
        end in
      emit [DataSourceRequestUpdate] s
  end.

(** [removeDecodedTile] *)
Definition removeDecodedTile (s : State) : State :=
  let s := with_tile (set_m_decodedTile None) s in
  invalidateResourceInfo s.

(** ** Teardown *)

(** [shouldDisposeObjectGeometry] *)
Definition shouldDisposeObjectGeometry (object : TileObject) : bool := true.

(** [shouldDisposeObjectMaterial] *)
Definition shouldDisposeObjectMaterial (object : TileObject) : bool := true.

(** [shouldDisposeTexture] *)
Definition shouldDisposeTexture (t : Tile) (texture : Texture) : bool :=
  bool_decide (texture ∈ m_ownedTextures t).

(** [disposeMaterial] of [clear]: the [dispose] calls it makes, in order. *)
Definition disposeMaterial (t : Tile) (m : Material) : list Event :=
  flat_map
    (fun '(_, materialProperty) =>
       match materialProperty with
       | PropTexture texture =>
           if shouldDisposeTexture t texture then [TextureDispose texture] else []
       | PropOther => []
       end)
    (ownProperties m)
  ++ [MaterialDispose (material_id m)].

(** [disposeObject] of [clear] *)
Definition disposeObject (t : Tile) (object : TileObject) : list Event :=
  (if shouldDisposeObjectGeometry object
   then
     match geometry object with
     | Some g => [GeometryDispose g]
     | None => []
     end
     ++ match geometries object with
        | Some gs => map GeometryDispose gs
        | None => []
        end
   else [])
  ++ match material object with
     | Some slot =>
         if shouldDisposeObjectMaterial object
         then
           match slot with
           | MaterialArray ms =>
               flat_map
                 (fun om => match om with
                            | Some m => disposeMaterial t m
                            | None => []
                            end) ms
           | MaterialSingle m => disposeMaterial t m
           end
         else []
     | None => []
     end.

(** [clear] *)
Definition clear (s : State) : State :=
  let s :=
    emit
      (flat_map
         (fun rootObject =>
            flat_map (disposeObject (tile s)) (traverse rootObject)
            ++ disposeObject (tile s) rootObject)
         (objects (tile s))) s in
  let s := with_tile (set_objects []) s in
  let s :=
    match preparedTextPaths (tile s) with
    | Some _ => with_tile (set_preparedTextPaths (Some [])) s
    | None => s
    end in
  let s :=
    match m_animatedExtrusionTileHandler (tile s) with
    | Some h => emit [AnimatedExtrusionTileHandlerDispose h] s
    | None => s
    end in
  let s := emit [TextStyleCacheClear] s in
  let s := clearTextElements s in
  invalidateResourceInfo s.

(** [dispose] *)
Definition dispose (s : State) : State :=
  if m_disposed (tile s) then s
  else
    let s :=
      match m_tileLoader (tile s) with
      | Some l => with_tile (set_m_tileLoader None) (emit [TileLoaderCancel l] s)
      | None => s
      end in
    let s :=
      match m_tileGeometryLoader (tile s) with
      | Some g =>
          with_tile (set_m_tileGeometryLoader None) (emit [TileGeometryLoaderDispose g] s)
      | None => s
      end in
    let s := clear s in
    let s := with_tile (set_m_disposed true) s in
    with_tile (set_frameNumLastRequested 0) s.

(** ** Sequences of calls *)

(** What a client of the tile can do to it: the accessors and methods above,
    and filling the public [objects] array. *)
Inductive Op : Type :=
| OpSetIsVisible (frameNumber : Z) (visible : bool)
| OpResetVisibilityCounter
| OpGetResourceInfo
| OpInvalidateResourceInfo
| OpAddOwnedTexture (texture : Texture)
| OpAddTextElement (textElement : TextElement)
| OpRemoveTextElement (textElement : TextElement)
| OpAddBlockingElement (blockingElement : PathBlockingElement)
| OpSetTextElementsChanged (changed : bool)
| OpClearTextElements
| OpSetVisibleArea (area : num)
| OpSetElevationRange (elevationRange : ElevationRange)
| OpSetDecodedTile (decodedTile : option DecodedTile)
| OpRemoveDecodedTile
| OpSetTileLoader (tileLoader : option ITileLoader)
| OpSetTileGeometryLoader (tileGeometryLoader : option TileGeometryLoader)
| OpSetAnimatedExtrusionTileHandler (handler : option AnimatedExtrusionTileHandler)
| OpForceHasGeometry (value : option bool)
| OpSetObjects (objects : list TileObject)
| OpClear
| OpDispose.

(** The state after one call; after a failed [assert] the caller goes on with
    the state as the call left it. *)
Definition run_op (op : Op) (s : State) : State :=
  match op with
  | OpSetIsVisible frameNumber visible => with_tile (set_isVisible frameNumber visible) s
  | OpResetVisibilityCounter => with_tile resetVisibilityCounter s
  | OpGetResourceInfo => snd (getResourceInfo s)
  | OpInvalidateResourceInfo => invalidateResourceInfo s
  | OpAddOwnedTexture texture => with_tile (addOwnedTexture texture) s
  | OpAddTextElement textElement => addTextElement textElement s
  | OpRemoveTextElement textElement => snd (removeTextElement textElement s)
  | OpAddBlockingElement blockingElement => with_tile (addBlockingElement blockingElement) s
  | OpSetTextElementsChanged changed => with_tile (set_textElementsChanged changed) s
  | OpClearTextElements => clearTextElements s
  | OpSetVisibleArea area => set_visibleArea area s
  | OpSetElevationRange elevationRange => outcome_state (set_elevationRange elevationRange s)
  | OpSetDecodedTile decodedTile => set_decodedTile decodedTile s
  | OpRemoveDecodedTile => removeDecodedTile s
  | OpSetTileLoader tileLoader => with_tile (set_m_tileLoader tileLoader) s
  | OpSetTileGeometryLoader g => with_tile (set_m_tileGeometryLoader g) s
  | OpSetAnimatedExtrusionTileHandler h =>
      with_tile (set_m_animatedExtrusionTileHandler h) s
  | OpForceHasGeometry value => with_tile (forceHasGeometry value) s
  | OpSetObjects objects => with_tile (set_objects objects) s
  | OpClear => clear s
  | OpDispose => dispose s
  end.

Definition run_ops (ops : list Op) (s : State) : State :=
  fold_left (fun s op => run_op op s) ops s.

(** A run of [set elevationRange] calls; [None] when one of them throws. *)
Fixpoint set_elevationRanges (rs : list ElevationRange) (s : State) : option State :=
  match rs with
  | [] => Some s
  | r :: rs' =>
      match set_elevationRange r s with
      | Returns s' => set_elevationRanges rs' s'
      | Throws _ => None
      end
  end.

(** ** Construction *)

(** The constructor.  [geoBox0] is what the tiling scheme returns for the tile
    key, [emptyBox] the value of [new OrientedBox3()] and [groups] the
    reference of the new label store. *)
Definition newTile (geoBox0 : GeoBox) (emptyBox : OrientedBox3) (groups : loc) : Tile :=
  let boundingBox := projectBox geoBox0 emptyBox in
  {| objects := [];
     geoBox := geoBox0;
     copyrightInfo := None;
     frameNumLastRequested := -1;
     frameNumVisible := -1;
     frameNumLastVisible := -1;
     numFramesVisible := 0;
     visibilityCounter := -1;
     preparedTextPaths := None;
     m_boundingBox := boundingBox;
     m_disposed := false;
     m_forceHasGeometry := None;
     m_tileLoader := None;
     m_decodedTile := None;
     m_tileGeometryLoader := None;
     m_textElementGroups := groups;
     m_pathBlockingElements := [];
     m_textElementsChanged := None;
     m_worldCenter := position boundingBox;
     m_visibleArea := num_lit 0;
     m_elevationRange :=
       {| minElevation := num_lit 0; maxElevation := num_lit 0; calculationStatus := None |};
     m_maxGeometryHeight := None;
     m_resourceInfo := None;
     m_ownedTextures := ∅;
     m_animatedExtrusionTileHandler := None |}.

(** A new tile with its own, empty label store and nothing called yet. *)
Definition newState (geoBox0 : GeoBox) (emptyBox : OrientedBox3) : State :=
  let groups := fresh (dom (∅ : gmap loc TextElementGroupPriorityList)) in
  {| tile := newTile geoBox0 emptyBox groups;
     heap := {[ groups := tegpl_new ]};
     trace := [] |}.

(** ** Further accessors *)

(** [get center] *)
Definition center (t : Tile) : Vector3 := m_worldCenter t.

(** [get boundingBox] *)
Definition boundingBox (t : Tile) : OrientedBox3 := m_boundingBox t.

(** What the tile reads of a [TileGeometryLoader]. *)
Variable loader_basicGeometryLoaded : TileGeometryLoader -> bool.
Variable loader_allGeometryLoaded : TileGeometryLoader -> bool.
Variable loader_isFinished : TileGeometryLoader -> bool.

(** [get basicGeometryLoaded] *)
Definition basicGeometryLoaded (t : Tile) : bool :=
  match m_tileGeometryLoader t with
  | None => hasGeometry t
  | Some g => loader_basicGeometryLoaded g || loader_isFinished g
  end.

(** [get allGeometryLoaded] *)
Definition allGeometryLoaded (t : Tile) : bool :=
  match m_tileGeometryLoader t with
  | None => hasGeometry t
  | Some g => loader_allGeometryLoaded g || loader_isFinished g
  end.

(** ** Loading *)

(** How the promise of [tileLoader.loadAndDecode()] settles: fulfilled with a
    loader state, the loader holding [decodedTile] at that moment, or rejected
    with a loader state or with something else. *)
Inductive Settlement : Type :=
| Fulfilled (tileLoaderState : TileLoaderState) (decodedTile : option DecodedTile)
| Rejected (tileLoaderState : TileLoaderState)
| RejectedOtherwise.

(** The [then] callback of [load]; a failed [assert] rejects the chained
    promise. *)
Definition load_then (tileLoaderState : TileLoaderState)
  (decodedTile : option DecodedTile) (s : State) : Outcome :=
  match tileLoaderState with
  | Ready => Returns (set_decodedTile decodedTile s)
  | _ => Throws s
  end.

(** The [catch] callback of [load]: whether [logger.error] is called.
    [None] stands for a reason that is no loader state. *)
Definition load_catch (reason : option TileLoaderState) : bool :=
  match reason with
  | Some Canceled => false
  | Some Failed => false
  | _ => true
  end.

(** [load] starts nothing without a loader: the loader whose [loadAndDecode] is
    called. *)
Definition load (s : State) : option ITileLoader :=
  m_tileLoader (tile s).

(** The two callbacks chained as [.then(...).catch(...)], run on the state the
    tile is in when the promise settles: the state afterwards and whether an
    error was logged. *)
Definition load_settled (settlement : Settlement) (s : State) : State * bool :=
  match settlement with
  | Fulfilled tileLoaderState decodedTile =>
      match load_then tileLoaderState decodedTile s with
      | Returns s' => (s', false)
      | Throws s' => (s', load_catch None)
      end
  | Rejected tileLoaderState => (s, load_catch (Some tileLoaderState))
  | RejectedOtherwise => (s, load_catch None)
  end.

(** ** Invariants of the bounds *)

(** A maximum geometry height is only known while no decoded bounding box is
    held: the condition under which the [assert] of [set elevationRange]
    holds. *)
Definition heightExcludesBox (t : Tile) : Prop :=
  m_maxGeometryHeight t = None \/ decodedBoundingBox_undefined t = true.

(** The altitudes of the geo box are those [elevateGeoBox] computes from the
    stored elevation range and maximum geometry height. *)
Definition geoBoxElevated (t : Tile) : Prop :=
  altitude (southWest (geoBox t)) = Some (minElevation (m_elevationRange t))
  /\ altitude (northEast (geoBox t))
     = Some (num_add (maxElevation (m_elevationRange t))
               (default (num_lit 0) (m_maxGeometryHeight t))).

(** The events [clear] emits for the objects of the tile. *)
Definition clear_object_events (t : Tile) : list Event :=
  flat_map
    (fun rootObject =>
       flat_map (disposeObject t) (traverse rootObject) ++ disposeObject t rootObject)
    (objects t).

End TileModel.

(** ** A concrete instance

    Numbers are integers, the projection keeps the altitudes of the geo box in
    the [z] coordinates of the box, and the size estimator counts 100 bytes for
    every object. *)

Module Example.

Inductive Status : Type := Pending | Approximate | Final.

#[export] Instance Status_eq_dec : EqDecision Status.
Proof. solve_decision. Defined.

Abbreviation ExTile := (@Tile Z Status).
Abbreviation ExState := (@State Z Status).
Abbreviation ExBox := (@OrientedBox3 Z).
Abbreviation ExGeoBox := (@GeoBox Z).
Abbreviation ExDecodedTile := (@DecodedTile Z).
Abbreviation ExOp := (@Op Z Status).

Definition vec (a b c : Z) : @Vector3 Z := mkVector3 a b c.

Definition emptyBox : ExBox :=
  mkOrientedBox3 (vec 0 0 0) (vec 1 0 0) (vec 0 1 0) (vec 0 0 1) (vec 0 0 0).

Definition project (g : ExGeoBox) (b : ExBox) : ExBox :=
  let lo := default 0 (altitude (southWest g)) in
  let hi := default 0 (altitude (northEast g)) in
  mkOrientedBox3 (vec (longitude (southWest g)) (latitude (southWest g)) lo)
    (xAxis b) (yAxis b) (zAxis b)
    (vec (longitude (northEast g) - longitude (southWest g))
         (latitude (northEast g) - latitude (southWest g)) (hi - lo)).

Definition estimate (o : TileObject) (acc : MemoryUsage * gmap string bool)
  : MemoryUsage * gmap string bool :=
  (mkMemoryUsage (mu_heapSize (fst acc) + 100) (mu_gpuSize (fst acc)), snd acc).

Definition geoBox0 : ExGeoBox :=
  mkGeoBox (mkGeoCoordinates 10 20 None) (mkGeoCoordinates 11 21 None).

Definition s0 : ExState := newState id project geoBox0 emptyBox.

(** The spec's scenario "tile at frame 10 is requested". *)
Definition requestedAt10 : ExTile := set_isVisible 10 true (tile s0).

Definition label (n : nat) (p : Z) : TextElement := mkTextElement n p.

(** The renderer has consumed the labels: the change flag is reset. *)
Definition consumed : ExState := with_tile (set_textElementsChanged false) s0.

Definition payloadBox : ExBox :=
  mkOrientedBox3 (vec 5 6 7) (vec 1 0 0) (vec 0 1 0) (vec 0 0 1) (vec 2 2 2).

(** A payload without geometries that brings its own bounding box. *)
Definition emptyPayload : ExDecodedTile :=
  mkDecodedTile [] (Some payloadBox) None None (Some (mkTileInfo 64)) None.

Definition exSetDecodedTile (d : option ExDecodedTile) (s : ExState) : ExState :=
  set_decodedTile id Z.add project false d s.

Definition decoded : ExState := exSetDecodedTile (Some emptyPayload) s0.

Definition exSetElevationRange (r : @ElevationRange Z Status) (s : ExState) : Outcome :=
  set_elevationRange id Z.add Z.eqb project r s.

Definition exRunOps (ops : list ExOp) (s : ExState) : ExState :=
  run_ops id Z.add Z.eqb project estimate false ops s.

(** A decoded tile that also has a loader. *)
Definition withLoader : ExState := with_tile (set_m_tileLoader (Some 7%nat)) decoded.

(** An elevation range equal to the one a new tile starts with. *)
Definition sameRange : @ElevationRange Z Status := mkElevationRange 0 0 None.

Definition keepingOps : list ExOp :=
  [OpClear; OpSetObjects []; OpForceHasGeometry (Some true); OpDispose].

Definition forcingFalse : list ExOp := [OpForceHasGeometry (Some false)].

(** The resource information is read once, then a label is added. *)
Definition infoBefore : TileResourceInfo := fst (getResourceInfo estimate s0).
Definition readOnce : ExState := snd (getResourceInfo estimate s0).
Definition labelled : ExState := addTextElement (label 1 5) readOnce.

(** Two labels added after the renderer consumed the store. *)
Definition firstAdd : ExState := addTextElement (label 1 5) consumed.
Definition secondAdd : ExState := addTextElement (label 2 5) firstAdd.

(** Feature data with an empty [starts] array and no [objInfos]. *)
Definition bareFeatureData : TileFeatureData := mkTileFeatureData (Some []) None.

(** The tile requested at frame 10, and calls that do not request it again. *)
Definition requested10 : ExState := with_tile (set_isVisible 10 true) s0.

Definition quietOps : list ExOp :=
  [OpAddTextElement (label 1 5); OpSetVisibleArea 3; OpClear].

Definition revivingOps : list ExOp :=
  [OpSetIsVisible 5 true; OpSetDecodedTile (Some emptyPayload)].

(** A payload with one geometry, no bounding box and a geometry height of 30. *)
Definition plainPayload : ExDecodedTile :=
  mkDecodedTile [1%nat] None (Some 30) None None None.

Definition elevated : ExState := exSetDecodedTile (Some plainPayload) s0.

Definition higherRange : @ElevationRange Z Status := mkElevationRange 10 250 (Some Final).

(** The renderer consumed the store again after the first label. *)
Definition consumedAgain : ExState := with_tile (set_textElementsChanged false) firstAdd.

Definition blocked : ExState := with_tile (addBlockingElement 4%nat) s0.

(** An object with a geometry and a material with two textures, of which the
    tile owns the first. *)
Definition texturedMaterial : Material :=
  mkMaterial 21 [("map"%string, PropTexture 3%nat); ("alphaMap"%string, PropTexture 4%nat)].

Definition texturedObject : TileObject :=
  mkTileObject true (Some 11%nat) None (Some (MaterialSingle texturedMaterial)) [].

Definition furnished : ExState :=
  with_tile (set_objects [texturedObject]) (with_tile (addOwnedTexture 3%nat) s0).

Definition exLoadSettled (settlement : @Settlement Z) (s : ExState) : ExState * bool :=
  load_settled id Z.add project false settlement s.

End Example.

(** * Properties *)

Section TileProperties.

Context {num : Type}.
Variable num_lit : Z -> num.
Variable num_add : num -> num -> num.
Variable num_strict_eq : num -> num -> bool.
Context {CalculationStatus : Type} `{EqDecision CalculationStatus}.
Variable projectBox : @GeoBox num -> @OrientedBox3 num -> @OrientedBox3 num.
Variable estimateObject3dSize :
  TileObject -> MemoryUsage * gmap string bool -> MemoryUsage * gmap string bool.
Variable statsEnabled : bool.

Local Abbreviation Tile := (@Tile num CalculationStatus).
Local Abbreviation State := (@State num CalculationStatus).
Local Abbreviation Op := (@Op num CalculationStatus).
Local Abbreviation set_decodedTile' := (set_decodedTile num_lit num_add projectBox statsEnabled).
Local Abbreviation set_elevationRange' :=
  (set_elevationRange num_lit num_add num_strict_eq projectBox).
Local Abbreviation set_elevationRanges' :=
  (set_elevationRanges num_lit num_add num_strict_eq projectBox).
Local Abbreviation resourceInfoOf' := (resourceInfoOf estimateObject3dSize).
Local Abbreviation getResourceInfo' := (getResourceInfo estimateObject3dSize).
Local Abbreviation run_op' :=
  (run_op num_lit num_add num_strict_eq projectBox estimateObject3dSize statsEnabled).
Local Abbreviation run_ops' :=
  (run_ops num_lit num_add num_strict_eq projectBox estimateObject3dSize statsEnabled).

Local Abbreviation newState' :=
  (newState (CalculationStatus := CalculationStatus) num_lit projectBox).
Local Abbreviation geoBoxElevated' := (geoBoxElevated num_lit num_add).
Local Abbreviation load_then' := (load_then num_lit num_add projectBox statsEnabled).
Local Abbreviation load_settled' := (load_settled num_lit num_add projectBox statsEnabled).

(** Unfolding of the state plumbing, and case analysis on every [match]. *)
Ltac unfold_ops :=
  unfold clear, clearTextElements, invalidateResourceInfo, removeDecodedTile,
    replaceByClone, heap_clone, heap_update, with_tile, emit,
    set_textElementsChanged, forceHasGeometry, updateBoundingBox, elevateGeoBox,
    addOwnedTexture, addBlockingElement, resetVisibilityCounter, set_isVisible in *.

Ltac split_cases :=
  repeat match goal with
         | |- context [match ?e with _ => _ end] => destruct e eqn:?
         end.

(** ** Visibility *)

(** C1: with the map view at frame [N], [isVisible] is true exactly when
    [frameNumLastRequested >= N - 1]; so it is true when the tile was last
    requested at frame [N - 1] or [N], and false when it was last requested at
    frame [N - 2] or before. *)
Theorem isVisible_iff (t : Tile) (N : Z) :
  (isVisible N t = true <-> N - 1 <= frameNumLastRequested t)
  /\ (frameNumLastRequested t = N - 1 \/ frameNumLastRequested t = N ->
      isVisible N t = true)
  /\ (frameNumLastRequested t <= N - 2 -> isVisible N t = false).
Proof.
  unfold isVisible.
  repeat split.
  - intros Hv. apply Z.geb_le in Hv. exact Hv.
  - intros Hle. apply Z.geb_le. exact Hle.
  - intros [-> | ->]; apply Z.geb_le; lia.
  - intros Hold. destruct (Z.geb_spec (frameNumLastRequested t) (N - 1)); [lia | reflexivity].
Qed.

(** C10: with the map view at frame [N >= 1], reading [isVisible] after
    [isVisible = true] gives true (the setter stores [N]), and after
    [isVisible = false] it gives false at frame [N] and at every later frame
    (the setter stores [-1]). *)
Theorem isVisible_set_get (t : Tile) (N : Z) :
  1 <= N ->
  frameNumLastRequested (set_isVisible N true t) = N
  /\ isVisible N (set_isVisible N true t) = true
  /\ frameNumLastRequested (set_isVisible N false t) = -1
  /\ (forall M, N <= M -> isVisible M (set_isVisible N false t) = false).
Proof.
  intros HN. unfold isVisible, set_isVisible. cbn.
  repeat split.
  - apply Z.geb_le. lia.
  - intros M HM. destruct (Z.geb_spec (-1) (M - 1)); [lia | reflexivity].
Qed.

(** ** Disposal *)

Lemma dispose_disposed (s : State) :
  m_disposed (tile s) = true -> dispose s = s.
Proof. intros Hd. unfold dispose. rewrite Hd. reflexivity. Qed.

Lemma dispose_marks (s : State) : m_disposed (tile (dispose s)) = true.
Proof.
  unfold dispose.
  destruct (m_disposed (tile s)) eqn:Hd; [exact Hd | reflexivity].
Qed.

Lemma dispose_resets_frame (s : State) :
  m_disposed (tile s) = false -> frameNumLastRequested (tile (dispose s)) = 0.
Proof. intros Hd. unfold dispose. rewrite Hd. reflexivity. Qed.

(** C4: what the code does.  After [dispose] of a tile that was not disposed
    yet the last requested frame is 0, so [isVisible] is true at the frames 0
    and 1 and false from frame 2 on. *)
Theorem dispose_isVisible (s : State) (N : Z) :
  m_disposed (tile s) = false ->
  frameNumLastRequested (tile (dispose s)) = 0
  /\ isVisible N (tile (dispose s)) = (N <=? 1).
Proof.
  intros Hd. pose proof (dispose_resets_frame s Hd) as H0.
  split; [exact H0 |].
  unfold isVisible. rewrite H0.
  destruct (Z.geb_spec 0 (N - 1)), (Z.leb_spec N 1); try reflexivity; lia.
Qed.

(** C9: a second [dispose] changes nothing: the tile, the label stores and the
    calls made to loaders and GPU resources are those after the first one.
    [dispose] is a total function, no call of it throws. *)
Theorem dispose_idempotent (s : State) :
  m_disposed (tile (dispose s)) = true
  /\ dispose (dispose s) = dispose s
  /\ trace (dispose (dispose s)) = trace (dispose s).
Proof.
  pose proof (dispose_marks s) as Hm.
  pose proof (dispose_disposed (dispose s) Hm) as Hi.
  split; [exact Hm |]. split; [exact Hi |]. rewrite Hi. reflexivity.
Qed.

(** *** What [clear] and [dispose] keep *)

Lemma clear_keeps (s : State) :
  m_tileLoader (tile (clear s)) = m_tileLoader (tile s)
  /\ m_tileGeometryLoader (tile (clear s)) = m_tileGeometryLoader (tile s)
  /\ m_decodedTile (tile (clear s)) = m_decodedTile (tile s)
  /\ m_forceHasGeometry (tile (clear s)) = m_forceHasGeometry (tile s)
  /\ m_disposed (tile (clear s)) = m_disposed (tile s).
Proof. unfold_ops. cbn. split_cases; cbn; repeat split; reflexivity. Qed.

Lemma clear_resets (s : State) :
  objects (tile (clear s)) = [] /\ m_resourceInfo (tile (clear s)) = None.
Proof. unfold_ops. cbn. split_cases; cbn; split; reflexivity. Qed.

Lemma clear_trace (s : State) : exists es, trace (clear s) = trace s ++ es.
Proof.
  unfold_ops. cbn. split_cases; cbn; rewrite <- ?app_assoc; eexists; reflexivity.
Qed.

(** C8 (amended): [dispose] of a tile that was not disposed yet cancels the
    loader and drops the references to the loader and to the geometry loader;
    the reference to the decoded payload stays as it was.  That reference is
    dropped by [removeDecodedTile] and replaced by an assignment to
    [decodedTile]. *)
Theorem dispose_releases_loader (s : State) :
  m_disposed (tile s) = false ->
  m_tileLoader (tile (dispose s)) = None
  /\ m_tileGeometryLoader (tile (dispose s)) = None
  /\ (forall l, m_tileLoader (tile s) = Some l -> In (TileLoaderCancel l) (trace (dispose s)))
  /\ m_decodedTile (tile (dispose s)) = m_decodedTile (tile s)
  /\ m_decodedTile (tile (removeDecodedTile s)) = None
  /\ (forall d, m_decodedTile (tile (set_decodedTile' d s)) = d).
Proof.
  intros Hd. unfold dispose. rewrite Hd.
  set (s1 := match m_tileLoader (tile s) with
             | Some l => with_tile (set_m_tileLoader None) (emit [TileLoaderCancel l] s)
             | None => s
             end).
  set (s2 := match m_tileGeometryLoader (tile s1) with
             | Some g =>
                 with_tile (set_m_tileGeometryLoader None)
                   (emit [TileGeometryLoaderDispose g] s1)
             | None => s1
             end).
  destruct (clear_keeps s2) as (Hl & Hg & Hdt & _ & _).
  destruct (clear_trace s2) as [es Hes].
  assert (Hl1 : m_tileLoader (tile s1) = None).
  { subst s1. destruct (m_tileLoader (tile s)) eqn:E; [reflexivity | exact E]. }
  assert (Hd1 : m_decodedTile (tile s1) = m_decodedTile (tile s)).
  { subst s1. destruct (m_tileLoader (tile s)); reflexivity. }
  assert (Hl2 : m_tileLoader (tile s2) = None).
  { subst s2. destruct (m_tileGeometryLoader (tile s1)); [exact Hl1 | exact Hl1]. }
  assert (Hg2 : m_tileGeometryLoader (tile s2) = None).
  { subst s2. destruct (m_tileGeometryLoader (tile s1)) eqn:E; [reflexivity | exact E]. }
  assert (Hd2 : m_decodedTile (tile s2) = m_decodedTile (tile s)).
  { subst s2. destruct (m_tileGeometryLoader (tile s1)); exact Hd1. }
  repeat split.
  - change (m_tileLoader (tile (clear s2)) = None). rewrite Hl. exact Hl2.
  - change (m_tileGeometryLoader (tile (clear s2)) = None). rewrite Hg. exact Hg2.
  - intros l Hsome. change (In (TileLoaderCancel l) (trace (clear s2))).
    rewrite Hes. apply in_or_app. left.
    subst s2. assert (Hin : In (TileLoaderCancel l) (trace s1)).
    { subst s1. rewrite Hsome. cbn. apply in_or_app. right. left. reflexivity. }
    destruct (m_tileGeometryLoader (tile s1)); [| exact Hin].
    cbn. apply in_or_app. left. exact Hin.
  - change (m_decodedTile (tile (clear s2)) = m_decodedTile (tile s)).
    rewrite Hdt. exact Hd2.
  - unfold set_decodedTile. intros [d |]; [| reflexivity].
    unfold_ops. cbn. split_cases; reflexivity.
Qed.

(** ** Bounds *)

Lemma set_decodedTile_with_box (s : State) (d : DecodedTile) (B : OrientedBox3) :
  dt_boundingBox d = Some B ->
  m_boundingBox (tile (set_decodedTile' (Some d) s)) = B
  /\ m_maxGeometryHeight (tile (set_decodedTile' (Some d) s)) = None.
Proof.
  intros HB. unfold set_decodedTile. rewrite HB.
  unfold_ops. cbn. split_cases; cbn; split; reflexivity.
Qed.

(** With no maximum geometry height known, [set elevationRange] returns and
    leaves the world bounding box alone. *)
Lemma set_elevationRange_without_height (r : ElevationRange) (s : State) :
  m_maxGeometryHeight (tile s) = None ->
  exists s', set_elevationRange' r s = Returns s'
    /\ m_boundingBox (tile s') = m_boundingBox (tile s)
    /\ m_maxGeometryHeight (tile s') = None.
Proof.
  intros Hh. unfold set_elevationRange.
  destruct (sameElevationRange _ r (m_elevationRange (tile s))).
  - exists s. repeat split. exact Hh.
  - unfold_ops. cbn. rewrite Hh. eexists. split; [reflexivity |].
    cbn. split; [reflexivity | exact Hh].
Qed.

Lemma set_elevationRanges_without_height (rs : list ElevationRange) (s : State) :
  m_maxGeometryHeight (tile s) = None ->
  exists s', set_elevationRanges' rs s = Some s'
    /\ m_boundingBox (tile s') = m_boundingBox (tile s).
Proof.
  revert s. induction rs as [| r rs IH]; intros s Hh.
  - exists s. split; reflexivity.
  - destruct (set_elevationRange_without_height r s Hh) as (s1 & Hr & Hb & Hh1).
    destruct (IH s1 Hh1) as (s2 & Hrs & Hb2).
    exists s2. cbn. rewrite Hr. split; [exact Hrs |]. rewrite Hb2. exact Hb.
Qed.

(** C5: after a payload with an explicit bounding box [B] has been assigned,
    the world bounding box is [B] and the maximum geometry height is
    undefined; every run of elevation-range updates after it returns without
    a failed assertion and leaves the world bounding box at [B]. *)
Theorem decoded_boundingBox_authoritative (s : State) (d : DecodedTile) (B : OrientedBox3) :
  dt_boundingBox d = Some B ->
  m_boundingBox (tile (set_decodedTile' (Some d) s)) = B
  /\ m_maxGeometryHeight (tile (set_decodedTile' (Some d) s)) = None
  /\ (forall rs : list ElevationRange,
        exists s', set_elevationRanges' rs (set_decodedTile' (Some d) s) = Some s'
                   /\ m_boundingBox (tile s') = B).
Proof.
  intros HB. destruct (set_decodedTile_with_box s d B HB) as [Hb Hh].
  split; [exact Hb |]. split; [exact Hh |].
  intros rs.
  destruct (set_elevationRanges_without_height rs _ Hh) as (s' & Hrs & Hb').
  exists s'. split; [exact Hrs |]. rewrite Hb'. exact Hb.
Qed.

(** C6: an elevation-range update whose minimum, maximum and status are
    [===] to the stored ones returns at once: the state after it is the state
    before it, and with it the stored range, the geo box and the world
    bounding box. *)
Theorem set_elevationRange_same (r : ElevationRange) (s : State) :
  num_strict_eq (minElevation r) (minElevation (m_elevationRange (tile s))) = true ->
  num_strict_eq (maxElevation r) (maxElevation (m_elevationRange (tile s))) = true ->
  calculationStatus r = calculationStatus (m_elevationRange (tile s)) ->
  set_elevationRange' r s = Returns s
  /\ m_elevationRange (tile (outcome_state (set_elevationRange' r s)))
     = m_elevationRange (tile s)
  /\ geoBox (tile (outcome_state (set_elevationRange' r s))) = geoBox (tile s)
  /\ m_boundingBox (tile (outcome_state (set_elevationRange' r s)))
     = m_boundingBox (tile s).
Proof.
  intros Hmin Hmax Hst.
  assert (Hret : set_elevationRange' r s = Returns s).
  { unfold set_elevationRange, sameElevationRange.
    rewrite Hmin, Hmax, (bool_decide_eq_true_2 _ Hst). reflexivity. }
  rewrite Hret. repeat split.
Qed.

(** ** Geometry presence *)

Lemma run_op_keeps_force (op : Op) (s : State) :
  (forall v, op = OpForceHasGeometry v -> v = Some true) ->
  m_forceHasGeometry (tile s) = Some true ->
  m_forceHasGeometry (tile (run_op' op s)) = Some true.
Proof.
  intros Hop Hf. destruct op; unfold run_op.
  all: try exact Hf.
  - unfold getResourceInfo. destruct (m_resourceInfo (tile s)); exact Hf.
  - unfold addTextElement. unfold_ops. cbn. split_cases; exact Hf.
  - unfold removeTextElement. unfold_ops. cbn. split_cases; cbn; exact Hf.
  - unfold_ops. cbn. split_cases; exact Hf.
  - unfold set_visibleArea. unfold_ops. cbn. split_cases; exact Hf.
  - unfold set_elevationRange. unfold_ops. cbn. split_cases; exact Hf.
  - unfold set_decodedTile. unfold_ops. cbn. split_cases; cbn; first [exact Hf | reflexivity].
  - rewrite (Hop value eq_refl). reflexivity.
  - destruct (clear_keeps s) as (_ & _ & _ & Hk & _). rewrite Hk. exact Hf.
  - unfold dispose. destruct (m_disposed (tile s)); [exact Hf |].
    match goal with
    | |- context [clear ?s2] =>
        change (m_forceHasGeometry (tile (clear s2)) = Some true);
        destruct (clear_keeps s2) as (_ & _ & _ & Hk & _); rewrite Hk
    end.
    split_cases; exact Hf.
Qed.

(** C7 (amended): after a payload without geometries has been assigned,
    [hasGeometry] is true, and it is true after every sequence of calls in
    which [forceHasGeometry] is called with [true] only: the override is
    taken back by [forceHasGeometry(undefined)] and by
    [forceHasGeometry(false)] alike. *)
Theorem hasGeometry_after_empty_payload (s : State) (d : DecodedTile) (ops : list Op) :
  dt_geometries d = [] ->
  Forall (fun op => forall v, op = OpForceHasGeometry v -> v = Some true) ops ->
  hasGeometry (tile (set_decodedTile' (Some d) s)) = true
  /\ hasGeometry (tile (run_ops' ops (set_decodedTile' (Some d) s))) = true.
Proof.
  intros Hg Hops.
  assert (Hf : m_forceHasGeometry (tile (set_decodedTile' (Some d) s)) = Some true).
  { unfold set_decodedTile. rewrite Hg. unfold_ops. cbn.
    split_cases; reflexivity. }
  assert (Hrun : forall s0 : State, m_forceHasGeometry (tile s0) = Some true ->
                   m_forceHasGeometry (tile (run_ops' ops s0)) = Some true).
  { induction Hops as [| op ops Hop _ IH]; intros s0 H0; [exact H0 |].
    cbn. apply IH. apply run_op_keeps_force; assumption. }
  unfold hasGeometry. rewrite (Hrun _ Hf), Hf. split; reflexivity.
Qed.

(** ** The cached resource information *)

Lemma getResourceInfo_fresh (s : State) :
  m_resourceInfo (tile s) = None -> fst (getResourceInfo' s) = resourceInfoOf' s.
Proof. intros Hn. unfold getResourceInfo. rewrite Hn. reflexivity. Qed.

Lemma getResourceInfo_cached (s : State) (info : TileResourceInfo) :
  m_resourceInfo (tile s) = Some info -> getResourceInfo' s = (info, s).
Proof. intros Hc. unfold getResourceInfo. rewrite Hc. reflexivity. Qed.

Lemma set_decodedTile_invalidates (d : option DecodedTile) (s : State) :
  m_resourceInfo (tile (set_decodedTile' d s)) = None.
Proof.
  unfold set_decodedTile. destruct d as [d |]; [| reflexivity].
  unfold_ops. cbn. split_cases; reflexivity.
Qed.

Lemma label_calls_keep_cache (s : State) (te : TextElement) :
  m_resourceInfo (tile (addTextElement te s)) = m_resourceInfo (tile s)
  /\ m_resourceInfo (tile (snd (removeTextElement te s))) = m_resourceInfo (tile s)
  /\ m_resourceInfo (tile (clearTextElements s)) = m_resourceInfo (tile s).
Proof.
  unfold addTextElement, removeTextElement. unfold_ops. cbn.
  split_cases; cbn; repeat split; reflexivity.
Qed.

(** C2 (amended): after the decoded payload has been replaced or removed, after
    [clear] and after [invalidateResourceInfo], [getResourceInfo] returns the
    record computed from the state it is called in.  [addTextElement],
    [removeTextElement], [clearTextElements] and a change of [objects] leave
    the cache as it is: when a record is cached, [getResourceInfo] returns that
    record after them. *)
Theorem resourceInfo_invalidation (s : State) :
  (forall d, fst (getResourceInfo' (set_decodedTile' d s))
             = resourceInfoOf' (set_decodedTile' d s))
  /\ fst (getResourceInfo' (removeDecodedTile s)) = resourceInfoOf' (removeDecodedTile s)
  /\ fst (getResourceInfo' (clear s)) = resourceInfoOf' (clear s)
  /\ fst (getResourceInfo' (invalidateResourceInfo s))
     = resourceInfoOf' (invalidateResourceInfo s)
  /\ (forall info, m_resourceInfo (tile s) = Some info ->
        (forall te, fst (getResourceInfo' (addTextElement te s)) = info)
        /\ (forall te, fst (getResourceInfo' (snd (removeTextElement te s))) = info)
        /\ fst (getResourceInfo' (clearTextElements s)) = info
        /\ (forall os, fst (getResourceInfo' (with_tile (set_objects os) s)) = info)).
Proof.
  split; [| split; [| split; [| split]]].
  - intros d. apply getResourceInfo_fresh, set_decodedTile_invalidates.
  - apply getResourceInfo_fresh. reflexivity.
  - apply getResourceInfo_fresh. apply (clear_resets s).
  - apply getResourceInfo_fresh. reflexivity.
  - intros info Hc. split; [| split; [| split]].
    + intros te. destruct (label_calls_keep_cache s te) as (Ha & _ & _).
      rewrite (getResourceInfo_cached _ info); [reflexivity |]. rewrite Ha. exact Hc.
    + intros te. destruct (label_calls_keep_cache s te) as (_ & Hr & _).
      rewrite (getResourceInfo_cached _ info); [reflexivity |]. rewrite Hr. exact Hc.
    + destruct (label_calls_keep_cache s (mkTextElement 0 0)) as (_ & _ & Hk).
      rewrite (getResourceInfo_cached _ info); [reflexivity |]. rewrite Hk. exact Hc.
    + intros os. rewrite (getResourceInfo_cached _ info); [reflexivity | exact Hc].
Qed.

(** ** The label store *)

Lemma tegpl_clone_contents (l : TextElementGroupPriorityList) : tegpl_clone l = l.
Proof.
  destruct l as [gs]. unfold tegpl_clone. cbn. f_equal.
  rewrite <- (map_fmap_id gs) at 2.
  apply map_fmap_ext. intros p [gp es] _. reflexivity.
Qed.

(** [addTextElement] when the change flag has been reset to false. *)
Lemma addTextElement_consumed (s : State) (te : TextElement) :
  m_textElementsChanged (tile s) = Some false ->
  addTextElement te s =
  let h1 := alter (tegpl_add te) (textElementGroups s) (heap s) in
  {| tile := set_m_textElementsChanged (Some true)
               (set_m_textElementGroups (fresh (dom h1)) (tile s));
     heap := <[fresh (dom h1) :=
                 tegpl_clone (default tegpl_new (h1 !! textElementGroups s))]> h1;
     trace := trace s |}.
Proof.
  intros Hflag. unfold addTextElement, textElementsChanged_is_false.
  unfold_ops. cbn. rewrite Hflag. reflexivity.
Qed.

(** [addTextElement] when the change flag is true. *)
Lemma addTextElement_changed (s : State) (te : TextElement) :
  m_textElementsChanged (tile s) = Some true ->
  addTextElement te s =
  {| tile := set_m_textElementsChanged (Some true) (tile s);
     heap := alter (tegpl_add te) (textElementGroups s) (heap s);
     trace := trace s |}.
Proof.
  intros Hflag. unfold addTextElement, textElementsChanged_is_false.
  unfold_ops. cbn. rewrite Hflag. reflexivity.
Qed.

(** C3 (amended): when [addTextElement] is called with the change flag reset
    to false, the label is added to the store the tile refers to at that
    moment, in place, so a reader that kept this reference finds the new label
    in it; then that store is cloned and the clone, a new object with the same
    contents, becomes the store of the tile.  A second [addTextElement] with no
    reset in between adds to that clone in place: the tile keeps its
    reference, no store is created, and the store the reader holds is not
    touched again. *)
Theorem addTextElement_clones_after_adding
  (s : State) (te1 te2 : TextElement) (store : TextElementGroupPriorityList) :
  m_textElementsChanged (tile s) = Some false ->
  heap s !! textElementGroups s = Some store ->
  let l := textElementGroups s in
  let s1 := addTextElement te1 s in
  let l1 := textElementGroups s1 in
  let s2 := addTextElement te2 s1 in
  l1 <> l
  /\ heap s !! l1 = None
  /\ heap s1 !! l = Some (tegpl_add te1 store)
  /\ heap s1 !! l1 = Some (tegpl_add te1 store)
  /\ m_textElementsChanged (tile s1) = Some true
  /\ textElementGroups s2 = l1
  /\ heap s2 !! l1 = Some (tegpl_add te2 (tegpl_add te1 store))
  /\ heap s2 !! l = Some (tegpl_add te1 store)
  /\ dom (heap s2) = dom (heap s1).
Proof.
  intros Hflag Hstore. cbv zeta.
  rewrite (addTextElement_consumed s te1 Hflag). cbv zeta.
  set (l := textElementGroups s) in *.
  set (h1 := alter (tegpl_add te1) l (heap s)).
  set (l1 := fresh (dom h1)).
  assert (Hread : h1 !! l = Some (tegpl_add te1 store)).
  { subst h1. rewrite lookup_alter_eq, Hstore. reflexivity. }
  assert (Hfresh : l1 ∉ dom (heap s)).
  { subst l1. replace (dom (heap s)) with (dom h1) by apply dom_alter_L. apply is_fresh. }
  assert (Hne : l1 <> l).
  { intros Heq. apply Hfresh. rewrite Heq. apply elem_of_dom. eexists. exact Hstore. }
  rewrite Hread. cbn [default]. rewrite tegpl_clone_contents.
  rewrite addTextElement_changed by reflexivity.
  unfold textElementGroups. cbn.
  repeat split.
  - exact Hne.
  - apply not_elem_of_dom. exact Hfresh.
  - rewrite lookup_insert_ne by exact Hne. exact Hread.
  - apply lookup_insert_eq.
  - rewrite lookup_alter_eq, lookup_insert_eq. reflexivity.
  - rewrite lookup_alter_ne by exact Hne.
    rewrite lookup_insert_ne by exact Hne. exact Hread.
  - apply dom_alter_L.
Qed.

(** * Further properties *)

(** ** Proof tools *)

(** The state and the tile as constructors applied to variables. *)
Ltac open_state s :=
  destruct s as [t h tr];
  destruct t as [o g c f1 f2 f3 f4 v ptp bb dis fhg tl dt tgl teg pbe tec wc va er mgh ri ot
                 aeh].

(** Projections and field updates of the state and of the tile, computed. *)
Ltac step_state :=
  cbv beta iota zeta delta
    [tile heap trace with_tile emit heap_update heap_clone replaceByClone
     invalidateResourceInfo removeDecodedTile textElementGroups outcome_state fst snd
     set_textElementsChanged forceHasGeometry addOwnedTexture addBlockingElement
     resetVisibilityCounter set_isVisible textElementsChanged_is_false
     decodedBoundingBox_undefined updateBoundingBox elevateGeoBox set_altitude
     dt_geometries dt_boundingBox dt_maxGeometryHeight dt_copyrightHolderIds dt_tileInfo
     dt_decodeTime
     objects geoBox copyrightInfo frameNumLastRequested frameNumVisible
     frameNumLastVisible numFramesVisible visibilityCounter preparedTextPaths
     m_boundingBox m_disposed m_forceHasGeometry m_tileLoader m_decodedTile
     m_tileGeometryLoader m_textElementGroups m_pathBlockingElements
     m_textElementsChanged m_worldCenter m_visibleArea m_elevationRange
     m_maxGeometryHeight m_resourceInfo m_ownedTextures
     m_animatedExtrusionTileHandler set_objects set_geoBox set_copyrightInfo
     set_frameNumLastRequested set_visibilityCounter set_preparedTextPaths
     set_m_boundingBox set_m_disposed set_m_forceHasGeometry set_m_tileLoader
     set_m_decodedTile set_m_tileGeometryLoader set_m_textElementGroups
     set_m_pathBlockingElements set_m_textElementsChanged set_m_worldCenter
     set_m_visibleArea set_m_elevationRange set_m_maxGeometryHeight
     set_m_resourceInfo set_m_ownedTextures set_m_animatedExtrusionTileHandler].

(** Case analysis on every test of a variable. *)
Ltac crack :=
  repeat (step_state;
          match goal with
          | |- context [match ?e with _ => _ end] => is_var e; destruct e
          end);
  step_state.

(** Every [hasTextElements] test in the goal is the same test: one case
    analysis for all of them. *)
Ltac fold_text :=
  try match goal with
      | |- context [hasTextElements ?a] =>
          let b := fresh "b" in
          pose (b := hasTextElements a);
          repeat match goal with
                 | |- context [hasTextElements ?a'] => change (hasTextElements a') with b
                 end;
          destruct b
      end.

(** ** [clear] and [dispose] written out *)

Lemma clear_tile (s : State) :
  tile (clear s) =
  let t := set_objects [] (tile s) in
  let t := match preparedTextPaths t with
           | Some _ => set_preparedTextPaths (Some []) t
           | None => t
           end in
  let t := if hasTextElements s
           then set_m_pathBlockingElements [] (set_textElementsChanged true t)
           else t in
  set_m_resourceInfo None t.
Proof.
  open_state s. unfold clear, clearTextElements. cbv zeta.
  destruct ptp, aeh; fold_text; reflexivity.
Qed.

Lemma clear_heap (s : State) :
  heap (clear s) =
  if hasTextElements s then alter tegpl_clear (textElementGroups s) (heap s) else heap s.
Proof.
  open_state s. unfold clear, clearTextElements. cbv zeta.
  destruct ptp, aeh; fold_text; reflexivity.
Qed.

Lemma clear_trace_eq (s : State) :
  trace (clear s) =
  trace s ++ clear_object_events (tile s)
  ++ match m_animatedExtrusionTileHandler (tile s) with
     | Some h => [AnimatedExtrusionTileHandlerDispose h]
     | None => []
     end
  ++ [TextStyleCacheClear].
Proof.
  open_state s. unfold clear, clearTextElements, clear_object_events. cbv zeta.
  destruct ptp, aeh; fold_text; step_state; rewrite <- ?app_assoc; reflexivity.
Qed.

(** The state that [dispose] hands to [clear]. *)
Lemma dispose_live (s : State) :
  m_disposed (tile s) = false ->
  exists s0,
    dispose s
    = with_tile (set_frameNumLastRequested 0) (with_tile (set_m_disposed true) (clear s0))
    /\ tile s0 = set_m_tileGeometryLoader None (set_m_tileLoader None (tile s))
    /\ heap s0 = heap s
    /\ trace s0 = trace s
         ++ match m_tileLoader (tile s) with Some l => [TileLoaderCancel l] | None => [] end
         ++ match m_tileGeometryLoader (tile s) with
            | Some g => [TileGeometryLoaderDispose g]
            | None => []
            end.
Proof.
  intros Hd. open_state s. change (dis = false) in Hd. subst dis. unfold dispose.
  destruct tl, tgl; (eexists; split; [reflexivity |]);
    step_state; rewrite <- ?app_assoc, ?app_nil_r; repeat split; reflexivity.
Qed.

Lemma dispose_tile (s : State) :
  m_disposed (tile s) = false ->
  tile (dispose s) =
  let t := set_objects [] (set_m_tileGeometryLoader None (set_m_tileLoader None (tile s))) in
  let t := match preparedTextPaths t with
           | Some _ => set_preparedTextPaths (Some []) t
           | None => t
           end in
  let t := if hasTextElements s
           then set_m_pathBlockingElements [] (set_textElementsChanged true t)
           else t in
  set_frameNumLastRequested 0 (set_m_disposed true (set_m_resourceInfo None t)).
Proof.
  intros Hd. destruct (dispose_live s Hd) as (s0 & Hdis & Htile & Hheap & _).
  rewrite Hdis.
  change (tile (with_tile (set_frameNumLastRequested 0)
                  (with_tile (set_m_disposed true) (clear s0))))
    with (set_frameNumLastRequested 0 (set_m_disposed true (tile (clear s0)))).
  rewrite clear_tile.
  assert (Htext : hasTextElements s0 = hasTextElements s).
  { unfold hasTextElements, heap_read. rewrite Hheap, Htile. reflexivity. }
  rewrite Htext, Htile. reflexivity.
Qed.

(** ** What every call keeps *)

Ltac leaf :=
  repeat split; intros;
  first [ reflexivity
        | assumption
        | exfalso; congruence
        | exfalso; match goal with
                   | H : forall n v, _ <> _ |- _ => eapply H; reflexivity
                   end
        | idtac ].

Lemma run_op_keeps (op : Op) (s : State) :
  (m_disposed (tile s) = true -> m_disposed (tile (run_op' op s)) = true)
  /\ m_ownedTextures (tile s) ⊆ m_ownedTextures (tile (run_op' op s))
  /\ latitude (southWest (geoBox (tile (run_op' op s))))
     = latitude (southWest (geoBox (tile s)))
  /\ longitude (southWest (geoBox (tile (run_op' op s))))
     = longitude (southWest (geoBox (tile s)))
  /\ latitude (northEast (geoBox (tile (run_op' op s))))
     = latitude (northEast (geoBox (tile s)))
  /\ longitude (northEast (geoBox (tile (run_op' op s))))
     = longitude (northEast (geoBox (tile s)))
  /\ ((forall n v, op <> OpSetIsVisible n v) -> op <> OpDispose ->
      frameNumLastRequested (tile (run_op' op s)) = frameNumLastRequested (tile s)).
Proof.
  destruct op; unfold run_op.
  - (* isVisible *) leaf.
  - leaf.
  - (* getResourceInfo *)
    unfold getResourceInfo. destruct (m_resourceInfo (tile s)); leaf.
  - leaf.
  - (* addOwnedTexture *)
    leaf. change (m_ownedTextures (tile s) ⊆ {[texture]} ∪ m_ownedTextures (tile s)).
    set_solver.
  - (* addTextElement *)
    open_state s. unfold addTextElement. crack; leaf.
  - (* removeTextElement *)
    open_state s. unfold removeTextElement. cbv zeta.
    destruct (tegpl_remove _ _) as [[|] st]; crack; leaf.
  - leaf.
  - leaf.
  - (* clearTextElements *)
    unfold clearTextElements. destruct (hasTextElements s); leaf.
  - (* visibleArea *)
    open_state s. unfold set_visibleArea. crack; leaf.
  - (* elevationRange *)
    open_state s. unfold set_elevationRange.
    destruct (sameElevationRange _ _ _); [leaf |].
    destruct mgh; [destruct dt as [[gs [bx |] mh ci ti dtm] |] |]; crack; leaf.
  - (* decodedTile *)
    open_state s. unfold set_decodedTile.
    destruct decodedTile as [[gs [bx |] mh [ci |] ti [dtm |]] |];
      try destruct gs; try destruct statsEnabled; crack; leaf.
  - leaf.
  - leaf.
  - leaf.
  - leaf.
  - leaf.
  - leaf.
  - (* clear *)
    rewrite clear_tile. cbv zeta.
    destruct (preparedTextPaths _), (hasTextElements s); leaf.
  - (* dispose *)
    destruct (m_disposed (tile s)) eqn:Hd.
    + rewrite (dispose_disposed s Hd). leaf.
    + rewrite (dispose_tile s Hd). cbv zeta.
      destruct (preparedTextPaths _), (hasTextElements s); leaf.
Qed.

Lemma run_ops_owned_mono (ops : list Op) (s : State) (texture : Texture) :
  texture ∈ m_ownedTextures (tile s) -> texture ∈ m_ownedTextures (tile (run_ops' ops s)).
Proof.
  revert s. induction ops as [| op ops IH]; intros s Ho; [exact Ho |].
  change (run_ops' (op :: ops) s) with (run_ops' ops (run_op' op s)).
  apply IH. destruct (run_op_keeps op s) as (_ & Hsub & _). set_solver.
Qed.

(** ** Feature data, visibility and ownership *)

(** X1: the feature-data estimate is 100 bytes plus 8 per start index plus 16
    per object info; an absent array counts like an empty one, so the estimate
    is 100 exactly when neither array has an element. *)
Theorem getFeatureDataSize_floor (fd : TileFeatureData) :
  getFeatureDataSize fd
  = 100 + 8 * Z.of_nat (length (default [] (starts fd)))
    + 16 * Z.of_nat (length (default [] (objInfos fd)))
  /\ 100 <= getFeatureDataSize fd
  /\ (getFeatureDataSize fd = 100 <-> no_element (starts fd) /\ no_element (objInfos fd)).
Proof.
  unfold getFeatureDataSize, no_element, MINIMUM_OBJECT_SIZE_ESTIMATION,
    MINIMUM_SMALL_OBJECT_SIZE_ESTIMATION.
  destruct fd as [[st |] [oi |]]; cbn -[Z.of_nat Z.mul Z.add].
  all: split; [lia |]; split; [lia |]; split.
  all: try (intros Hsize; split;
            first [ left; reflexivity
                  | right; f_equal;
                    match goal with
                    | |- ?l = [] => destruct l; [reflexivity | cbn [length] in Hsize; lia]
                    end ]).
  all: intros [[Hs | Hs] [Ho | Ho]]; try discriminate;
    repeat match goal with
           | H : Some _ = Some [] |- _ => injection H as ->
           end; cbn [length]; lia.
Qed.

(** X2: a tile that has just been constructed and never requested reads as
    visible while the map view is at frame 0, and as not visible from frame 1
    on. *)
Theorem newTile_isVisible (geoBox0 : GeoBox) (emptyBox : OrientedBox3) (N : Z) :
  isVisible N (tile (newState' geoBox0 emptyBox)) = (N <=? 0).
Proof.
  unfold isVisible. cbn.
  destruct (Z.geb_spec (-1) (N - 1)), (Z.leb_spec N 0); try reflexivity; lia.
Qed.

Lemma run_ops_keeps_frame (ops : list Op) (s : State) :
  Forall (fun op => (forall n v, op <> OpSetIsVisible n v) /\ op <> OpDispose) ops ->
  frameNumLastRequested (tile (run_ops' ops s)) = frameNumLastRequested (tile s).
Proof.
  intros Hops. revert s. induction Hops as [| op ops [Hv Hd] _ IH]; intros s.
  - reflexivity.
  - change (run_ops' (op :: ops) s) with (run_ops' ops (run_op' op s)).
    rewrite IH. apply (run_op_keeps op s); assumption.
Qed.

(** X3: only the [isVisible] setter and [dispose] write the last requested
    frame.  So a tile that is not visible at frame [N] is not visible at any
    later frame either, whatever else is called on it in between. *)
Theorem invisible_stays_invisible (s : State) (ops : list Op) (N M : Z) :
  Forall (fun op => (forall n v, op <> OpSetIsVisible n v) /\ op <> OpDispose) ops ->
  N <= M ->
  isVisible N (tile s) = false ->
  frameNumLastRequested (tile (run_ops' ops s)) = frameNumLastRequested (tile s)
  /\ isVisible M (tile (run_ops' ops s)) = false.
Proof.
  intros Hops HNM Hinv.
  pose proof (run_ops_keeps_frame ops s Hops) as Hframe.
  split; [exact Hframe |].
  unfold isVisible in *. rewrite Hframe.
  destruct (Z.geb_spec (frameNumLastRequested (tile s)) (N - 1)); [discriminate |].
  destruct (Z.geb_spec (frameNumLastRequested (tile s)) (M - 1)); [lia | reflexivity].
Qed.

(** X4: no call takes the disposed mark back: a disposed tile stays disposed
    under every sequence of calls. *)
Theorem disposed_stays_disposed (s : State) (ops : list Op) :
  m_disposed (tile s) = true -> m_disposed (tile (run_ops' ops s)) = true.
Proof.
  revert s. induction ops as [| op ops IH]; intros s Hd; [exact Hd |].
  change (run_ops' (op :: ops) s) with (run_ops' ops (run_op' op s)).
  apply IH. apply (run_op_keeps op s). exact Hd.
Qed.

(** X5: a texture registered with [addOwnedTexture] is one that
    [shouldDisposeTexture] accepts, and it stays registered under every
    sequence of calls, [clear] and [dispose] included. *)
Theorem ownedTexture_stays_owned (s : State) (texture : Texture) (ops : list Op) :
  shouldDisposeTexture (tile (with_tile (addOwnedTexture texture) s)) texture = true
  /\ (shouldDisposeTexture (tile s) texture = true ->
      shouldDisposeTexture (tile (run_ops' ops s)) texture = true).
Proof.
  unfold shouldDisposeTexture. split.
  - apply bool_decide_eq_true_2. cbn. set_solver.
  - intros Ho. apply bool_decide_eq_true_2. apply run_ops_owned_mono.
    eapply bool_decide_eq_true_1. exact Ho.
Qed.

(** ** Bounds under every call *)

Ltac leaf_bounds :=
  unfold heightExcludesBox, geoBoxElevated in *; step_state; intros;
  first [ assumption
        | left; reflexivity
        | right; reflexivity
        | split; reflexivity
        | exfalso;
          match goal with
          | H : _ \/ _ |- _ => destruct H as [H | H]; cbv in H; discriminate H
          end ].

Lemma run_op_keeps_bounds (op : Op) (s : State) :
  (heightExcludesBox (tile s) -> heightExcludesBox (tile (run_op' op s)))
  /\ (geoBoxElevated' (tile s) -> geoBoxElevated' (tile (run_op' op s))).
Proof.
  destruct op; unfold run_op.
  - split; leaf_bounds.
  - split; leaf_bounds.
  - unfold getResourceInfo. destruct (m_resourceInfo (tile s)); split; leaf_bounds.
  - split; leaf_bounds.
  - split; leaf_bounds.
  - open_state s. unfold addTextElement. crack; split; leaf_bounds.
  - open_state s. unfold removeTextElement. cbv zeta.
    destruct (tegpl_remove _ _) as [[|] st]; crack; split; leaf_bounds.
  - split; leaf_bounds.
  - split; leaf_bounds.
  - unfold clearTextElements. destruct (hasTextElements s); split; leaf_bounds.
  - open_state s. unfold set_visibleArea. crack; split; leaf_bounds.
  - open_state s. unfold set_elevationRange.
    destruct (sameElevationRange _ _ _); [split; leaf_bounds |].
    destruct mgh; [destruct dt as [[gs [bx |] mh ci ti dtm] |] |]; crack; split; leaf_bounds.
  - open_state s. unfold set_decodedTile.
    destruct decodedTile as [[gs [bx |] mh [ci |] ti [dtm |]] |];
      try destruct gs; try destruct statsEnabled; crack; split; leaf_bounds.
  - open_state s. split; leaf_bounds.
  - split; leaf_bounds.
  - split; leaf_bounds.
  - split; leaf_bounds.
  - split; leaf_bounds.
  - split; leaf_bounds.
  - unfold heightExcludesBox, geoBoxElevated, decodedBoundingBox_undefined.
    rewrite clear_tile. cbv zeta.
    destruct (preparedTextPaths _), (hasTextElements s); split; intros H; exact H.
  - destruct (m_disposed (tile s)) eqn:Hd.
    + rewrite (dispose_disposed s Hd). split; intros H; exact H.
    + unfold heightExcludesBox, geoBoxElevated, decodedBoundingBox_undefined.
      rewrite (dispose_tile s Hd). cbv zeta.
      destruct (preparedTextPaths _), (hasTextElements s); split; intros H; exact H.
Qed.

Lemma run_ops_keeps_bounds (ops : list Op) (s : State) :
  (heightExcludesBox (tile s) -> heightExcludesBox (tile (run_ops' ops s)))
  /\ (geoBoxElevated' (tile s) -> geoBoxElevated' (tile (run_ops' ops s))).
Proof.
  revert s. induction ops as [| op ops IH]; intros s; [split; intros H; exact H |].
  destruct (run_op_keeps_bounds op s) as [Hh Hg].
  destruct (IH (run_op' op s)) as [IHh IHg].
  split; intros H; [apply IHh, Hh, H | apply IHg, Hg, H].
Qed.

Lemma set_elevationRange_returns (r : ElevationRange) (s : State) :
  heightExcludesBox (tile s) -> exists s', set_elevationRange' r s = Returns s'.
Proof.
  intros Hinv. unfold set_elevationRange.
  destruct (sameElevationRange _ _ _); [eexists; reflexivity |].
  open_state s. unfold heightExcludesBox in Hinv.
  destruct mgh; [destruct dt as [[gs [bx |] mh ci ti dtm] |] |]; crack;
    try (eexists; reflexivity).
  exfalso. destruct Hinv as [H | H]; cbv in H; discriminate H.
Qed.

(** X6: on a tile that has only been used through its own operations, the
    assertion in the [elevationRange] setter never fails: after any sequence of
    calls on a new tile, an elevation-range update returns. *)
Theorem set_elevationRange_never_throws
  (geoBox0 : GeoBox) (emptyBox : OrientedBox3) (ops : list Op) (r : ElevationRange) :
  exists s', set_elevationRange' r (run_ops' ops (newState' geoBox0 emptyBox)) = Returns s'.
Proof.
  apply set_elevationRange_returns.
  apply (run_ops_keeps_bounds ops). left. reflexivity.
Qed.

(** X7: no call moves the tile on the ground: latitude and longitude of both
    corners of the geo box are the same after every sequence of calls; only
    the altitudes are rewritten. *)
Theorem geoBox_footprint_fixed (s : State) (ops : list Op) :
  latitude (southWest (geoBox (tile (run_ops' ops s))))
  = latitude (southWest (geoBox (tile s)))
  /\ longitude (southWest (geoBox (tile (run_ops' ops s))))
     = longitude (southWest (geoBox (tile s)))
  /\ latitude (northEast (geoBox (tile (run_ops' ops s))))
     = latitude (northEast (geoBox (tile s)))
  /\ longitude (northEast (geoBox (tile (run_ops' ops s))))
     = longitude (northEast (geoBox (tile s))).
Proof.
  revert s. induction ops as [| op ops IH]; intros s; [repeat split |].
  destruct (run_op_keeps op s) as (_ & _ & H1 & H2 & H3 & H4 & _).
  destruct (IH (run_op' op s)) as (I1 & I2 & I3 & I4).
  change (run_ops' (op :: ops) s) with (run_ops' ops (run_op' op s)).
  rewrite I1, I2, I3, I4. repeat split; assumption.
Qed.

(** X8: once a decoded payload has been assigned, the altitudes of the geo box
    are the minimum elevation and the maximum elevation plus the maximum
    geometry height (or 0), and every later sequence of calls keeps them
    so. *)
Theorem geoBox_altitudes_follow_elevation (s : State) (d : DecodedTile) (ops : list Op) :
  geoBoxElevated' (tile (run_ops' ops (set_decodedTile' (Some d) s))).
Proof.
  apply (run_ops_keeps_bounds ops).
  open_state s. unfold set_decodedTile, geoBoxElevated.
  destruct d as [gs [bx |] mh [ci |] ti [dtm |]];
    try destruct gs; try destruct statsEnabled; crack; split; reflexivity.
Qed.

(** ** Elevation and payload, written out *)

(** X9: an elevation-range update that differs from the stored range, on a tile
    whose payload gave no bounding box, stores the new range, sets the
    altitudes of the geo box to the new minimum and to the new maximum plus the
    known maximum geometry height, and replaces the world bounding box by the
    projection of that geo box.  The world centre is not moved. *)
Theorem set_elevationRange_recomputes (r : ElevationRange) (s : State) (height : num) :
  sameElevationRange num_strict_eq r (m_elevationRange (tile s)) = false ->
  m_maxGeometryHeight (tile s) = Some height ->
  decodedBoundingBox_undefined (tile s) = true ->
  exists s', set_elevationRange' r s = Returns s'
    /\ m_elevationRange (tile s') = r
    /\ altitude (southWest (geoBox (tile s'))) = Some (minElevation r)
    /\ altitude (northEast (geoBox (tile s'))) = Some (num_add (maxElevation r) height)
    /\ boundingBox (tile s') = projectBox (geoBox (tile s')) (boundingBox (tile s))
    /\ center (tile s') = center (tile s).
Proof.
  intros Hdiff Hheight Hbox. unfold set_elevationRange. rewrite Hdiff.
  open_state s. destruct r as [rmin rmax rst].
  change (mgh = Some height) in Hheight. subst mgh.
  destruct dt as [[gs [bx |] mh ci ti dtm] |]; try (cbv in Hbox; discriminate Hbox).
  all: eexists; split; [reflexivity |]; repeat split; reflexivity.
Qed.

(** X10: a payload without a bounding box sets the maximum geometry height to
    the declared one, or to 0 when none is declared, and replaces the world
    bounding box by the projection of the geo box elevated with it; the world
    centre and the stored elevation range are not changed. *)
Theorem set_decodedTile_without_box (d : DecodedTile) (s : State) :
  dt_boundingBox d = None ->
  m_maxGeometryHeight (tile (set_decodedTile' (Some d) s))
  = Some (default (num_lit 0) (dt_maxGeometryHeight d))
  /\ altitude (northEast (geoBox (tile (set_decodedTile' (Some d) s))))
     = Some (num_add (maxElevation (m_elevationRange (tile s)))
               (default (num_lit 0) (dt_maxGeometryHeight d)))
  /\ boundingBox (tile (set_decodedTile' (Some d) s))
     = projectBox (geoBox (tile (set_decodedTile' (Some d) s))) (boundingBox (tile s))
  /\ center (tile (set_decodedTile' (Some d) s)) = center (tile s)
  /\ m_elevationRange (tile (set_decodedTile' (Some d) s)) = m_elevationRange (tile s).
Proof.
  intros Hbox. open_state s. destruct d as [gs bx mh ci ti dtm].
  change (bx = None) in Hbox. subst bx. unfold set_decodedTile.
  destruct gs, ci, dtm; try destruct statsEnabled; repeat split; reflexivity.
Qed.

(** X11: a payload with a bounding box moves the world centre to the position
    of that box, and the geo box is elevated with the stored range alone. *)
Theorem set_decodedTile_with_box_center (d : DecodedTile) (B : OrientedBox3) (s : State) :
  dt_boundingBox d = Some B ->
  center (tile (set_decodedTile' (Some d) s)) = position B
  /\ altitude (southWest (geoBox (tile (set_decodedTile' (Some d) s))))
     = Some (minElevation (m_elevationRange (tile s)))
  /\ altitude (northEast (geoBox (tile (set_decodedTile' (Some d) s))))
     = Some (num_add (maxElevation (m_elevationRange (tile s))) (num_lit 0)).
Proof.
  intros Hbox. open_state s. destruct d as [gs bx mh ci ti dtm].
  change (bx = Some B) in Hbox. subst bx. unfold set_decodedTile.
  destruct gs, ci, dtm; try destruct statsEnabled; repeat split; reflexivity.
Qed.

(** X12: assigning [undefined] to [decodedTile] is [removeDecodedTile]: it
    requests no update and leaves bounds and override alone.  Assigning a
    payload requests one update of the data source, after the statistics
    entries if statistics are enabled and the payload has a decode time. *)
Theorem set_decodedTile_undefined (s : State) :
  set_decodedTile' None s = removeDecodedTile s
  /\ trace (removeDecodedTile s) = trace s
  /\ (forall d,
        trace (set_decodedTile' (Some d) s)
        = trace s
          ++ match dt_decodeTime d with
             | Some time =>
                 if statsEnabled
                 then [StatsAddValue "decode.decodingTime" time;
                       StatsAddValue "decode.decodedTiles" (num_lit 1)]
                 else []
             | None => []
             end
          ++ [DataSourceRequestUpdate]).
Proof.
  split; [reflexivity |]. split; [reflexivity |].
  intros d. open_state s. destruct d as [gs bx mh ci ti dtm]. unfold set_decodedTile.
  destruct gs, bx, ci, dtm; try destruct statsEnabled;
    step_state; rewrite <- ?app_assoc; reflexivity.
Qed.

(** X13: a payload that has geometries does not touch the override: after it
    [hasGeometry] is what it was, so it only becomes true once objects have
    been added (or the override is set). *)
Theorem set_decodedTile_with_geometries (d : DecodedTile) (s : State) :
  dt_geometries d <> [] ->
  m_forceHasGeometry (tile (set_decodedTile' (Some d) s)) = m_forceHasGeometry (tile s)
  /\ hasGeometry (tile (set_decodedTile' (Some d) s)) = hasGeometry (tile s).
Proof.
  intros Hgeo. open_state s. destruct d as [gs bx mh ci ti dtm].
  change (gs <> []) in Hgeo. unfold set_decodedTile.
  destruct gs; [congruence |].
  destruct bx, ci, dtm; try destruct statsEnabled; split; reflexivity.
Qed.

(** ** Labels, the other cases *)

(** X14: on a tile whose change flag was never written the getter reads false,
    but [addTextElement] makes no clone there: only a flag that was reset to
    false triggers one.  The label is added to the store in place, the tile
    keeps its reference and the flag becomes true. *)
Theorem addTextElement_flag_undefined (s : State) (te : TextElement) :
  m_textElementsChanged (tile s) = None ->
  textElementsChanged (tile s) = false
  /\ textElementGroups (addTextElement te s) = textElementGroups s
  /\ heap (addTextElement te s) = alter (tegpl_add te) (textElementGroups s) (heap s)
  /\ m_textElementsChanged (tile (addTextElement te s)) = Some true.
Proof.
  intros Hflag. open_state s. change (tec = None) in Hflag. subst tec.
  unfold addTextElement. repeat split; reflexivity.
Qed.

(** X15: when the store does not find the label, [removeTextElement] returns
    false and changes nothing: no clone is made and the change flag keeps its
    value. *)
Theorem removeTextElement_not_found
  (s : State) (te : TextElement) (rest : TextElementGroupPriorityList) :
  tegpl_remove te (heap_read (textElementGroups s) s) = (false, rest) ->
  removeTextElement te s = (false, s).
Proof.
  intros Hrem. unfold removeTextElement. cbv zeta. rewrite Hrem. reflexivity.
Qed.

(** X16: [removeTextElement] follows the same order as [addTextElement]: with
    the change flag reset to false and the label found, the label is removed
    from the store in place, then that store is cloned and the clone becomes
    the store of the tile; the result is true and the flag becomes true. *)
Theorem removeTextElement_clones_after_removing
  (s : State) (te : TextElement) (store store' : TextElementGroupPriorityList) :
  m_textElementsChanged (tile s) = Some false ->
  heap s !! textElementGroups s = Some store ->
  tegpl_remove te store = (true, store') ->
  fst (removeTextElement te s) = true
  /\ textElementGroups (snd (removeTextElement te s)) <> textElementGroups s
  /\ heap s !! textElementGroups (snd (removeTextElement te s)) = None
  /\ heap (snd (removeTextElement te s)) !! textElementGroups s = Some store'
  /\ heap (snd (removeTextElement te s)) !! textElementGroups (snd (removeTextElement te s))
     = Some store'
  /\ m_textElementsChanged (tile (snd (removeTextElement te s))) = Some true.
Proof.
  intros Hflag Hstore Hrem.
  open_state s. change (tec = Some false) in Hflag. subst tec.
  change (h !! teg = Some store) in Hstore.
  unfold removeTextElement, heap_read. cbv zeta. step_state.
  rewrite Hstore. change (default tegpl_new (Some store)) with store.
  rewrite Hrem. step_state.
  cbn [negb]. step_state.
  set (h1 := alter (fun _ => store') teg h).
  assert (Hread : h1 !! teg = Some store').
  { subst h1. rewrite lookup_alter_eq, Hstore. reflexivity. }
  assert (Hfresh : fresh (dom h1) ∉ dom h).
  { replace (dom h) with (dom h1) by apply dom_alter_L. apply is_fresh. }
  assert (Hne : fresh (dom h1) <> teg).
  { intros Heq. apply Hfresh. rewrite Heq. apply elem_of_dom. eexists. exact Hstore. }
  unfold heap_read. step_state. rewrite Hread.
  change (default tegpl_new (Some store')) with store'.
  rewrite tegpl_clone_contents.
  repeat split.
  - exact Hne.
  - apply not_elem_of_dom. exact Hfresh.
  - rewrite lookup_insert_ne by exact Hne. exact Hread.
  - apply lookup_insert_eq.
Qed.

Lemma tegpl_count_clear (l : TextElementGroupPriorityList) : tegpl_count (tegpl_clear l) = 0.
Proof. unfold tegpl_count, tegpl_clear. cbn [groups]. apply map_fold_empty. Qed.

Lemma hasTextElements_allocated (s : State) :
  hasTextElements s = true -> exists store, heap s !! textElementGroups s = Some store.
Proof.
  unfold hasTextElements, heap_read, textElementGroups.
  destruct (heap s !! m_textElementGroups (tile s)) as [store |]; [eauto |].
  cbn [default]. unfold tegpl_count, tegpl_new. cbn [groups].
  rewrite map_fold_empty. intros Hpos. discriminate Hpos.
Qed.

(** X17: [clearTextElements] on a tile without labels does nothing at all, so
    blocking elements that were added stay.  On a tile with labels it empties
    the store the tile refers to, in place and without a clone, drops the
    blocking elements and sets the change flag; the tile has no labels
    afterwards. *)
Theorem clearTextElements_cases (s : State) :
  (hasTextElements s = false -> clearTextElements s = s)
  /\ (hasTextElements s = true ->
      textElementGroups (clearTextElements s) = textElementGroups s
      /\ heap (clearTextElements s) = alter tegpl_clear (textElementGroups s) (heap s)
      /\ m_pathBlockingElements (tile (clearTextElements s)) = []
      /\ m_textElementsChanged (tile (clearTextElements s)) = Some true
      /\ hasTextElements (clearTextElements s) = false).
Proof.
  split; intros Htext.
  - unfold clearTextElements. rewrite Htext. reflexivity.
  - destruct (hasTextElements_allocated s Htext) as [store Hstore].
    unfold clearTextElements. rewrite Htext. cbn [negb].
    repeat split.
    unfold hasTextElements, heap_read.
    change ((tegpl_count
               (default tegpl_new
                  (alter tegpl_clear (textElementGroups s) (heap s) !! textElementGroups s))
             >? 0) = false).
    rewrite lookup_alter_eq, Hstore.
    change ((tegpl_count (tegpl_clear store) >? 0) = false).
    rewrite tegpl_count_clear. reflexivity.
Qed.

Lemma clear_no_text (s : State) : hasTextElements (clear s) = false.
Proof.
  unfold hasTextElements, heap_read.
  rewrite clear_heap.
  assert (Hgroups : m_textElementGroups (tile (clear s)) = textElementGroups s).
  { rewrite clear_tile. cbv zeta.
    destruct (preparedTextPaths _), (hasTextElements s); reflexivity. }
  rewrite Hgroups.
  destruct (hasTextElements s) eqn:Htext.
  - destruct (hasTextElements_allocated s Htext) as [store Hstore].
    rewrite lookup_alter_eq, Hstore.
    change ((tegpl_count (tegpl_clear store) >? 0) = false).
    rewrite tegpl_count_clear. reflexivity.
  - exact Htext.
Qed.

(** X18: [clear] is idempotent on the tile and on the label stores, but not on
    the calls it makes: a second [clear] disposes the extrusion handler again,
    whose reference [clear] keeps, and clears the text style cache again. *)
Theorem clear_twice (s : State) :
  tile (clear (clear s)) = tile (clear s)
  /\ heap (clear (clear s)) = heap (clear s)
  /\ m_animatedExtrusionTileHandler (tile (clear s))
     = m_animatedExtrusionTileHandler (tile s)
  /\ trace (clear (clear s))
     = trace (clear s)
       ++ match m_animatedExtrusionTileHandler (tile s) with
          | Some h => [AnimatedExtrusionTileHandlerDispose h]
          | None => []
          end
       ++ [TextStyleCacheClear].
Proof.
  pose proof (clear_no_text s) as Hnone.
  assert (Hhandler : m_animatedExtrusionTileHandler (tile (clear s))
                     = m_animatedExtrusionTileHandler (tile s)).
  { rewrite clear_tile. cbv zeta.
    destruct (preparedTextPaths _), (hasTextElements s); reflexivity. }
  assert (Hobjects : objects (tile (clear s)) = []).
  { rewrite clear_tile. cbv zeta.
    destruct (preparedTextPaths _), (hasTextElements s); reflexivity. }
  split; [| split; [| split]].
  - rewrite (clear_tile (clear s)). rewrite Hnone. cbv zeta.
    rewrite (clear_tile s). cbv zeta. clear Hnone Hhandler Hobjects.
    open_state s. destruct ptp; fold_text; reflexivity.
  - rewrite (clear_heap (clear s)), Hnone. reflexivity.
  - exact Hhandler.
  - rewrite (clear_trace_eq (clear s)), Hhandler.
    unfold clear_object_events. rewrite Hobjects. reflexivity.
Qed.

(** ** What teardown releases *)

Lemma disposeMaterial_textures (t : Tile) (m : Material) (texture : Texture) :
  In (TextureDispose texture) (disposeMaterial t m) ->
  In texture (textures_of m) /\ texture ∈ m_ownedTextures t.
Proof.
  unfold disposeMaterial, textures_of. intros Hin.
  apply in_app_or in Hin. destruct Hin as [Hin | [Hin | []]]; [| discriminate Hin].
  apply in_flat_map in Hin. destruct Hin as ([name p] & Hp & Hin).
  destruct p as [tex |]; [| destruct Hin].
  unfold shouldDisposeTexture in Hin.
  destruct (bool_decide (tex ∈ m_ownedTextures t)) eqn:Howned; [| destruct Hin].
  destruct Hin as [Heq | []]. injection Heq as <-.
  split; [| eapply bool_decide_eq_true_1; exact Howned].
  apply in_flat_map. exists (name, PropTexture tex). split; [exact Hp | left; reflexivity].
Qed.

Lemma disposeMaterial_events (t : Tile) (m : Material) :
  In (MaterialDispose (material_id m)) (disposeMaterial t m)
  /\ (forall texture, In texture (textures_of m) -> texture ∈ m_ownedTextures t ->
        In (TextureDispose texture) (disposeMaterial t m)).
Proof.
  unfold disposeMaterial, textures_of. split.
  - apply in_or_app. right. left. reflexivity.
  - intros texture Hin Howned. apply in_or_app. left.
    apply in_flat_map in Hin. destruct Hin as ([name p] & Hp & Hin).
    destruct p as [tex |]; [| destruct Hin]. destruct Hin as [<- | []].
    apply in_flat_map. exists (name, PropTexture tex). split; [exact Hp |].
    unfold shouldDisposeTexture. rewrite (bool_decide_eq_true_2 _ Howned).
    left. reflexivity.
Qed.

Lemma disposeObject_materials (t : Tile) (o : TileObject) (m : Material) (e : Event) :
  In m (materials_of o) -> In e (disposeMaterial t m) -> In e (disposeObject t o).
Proof.
  unfold materials_of, disposeObject, shouldDisposeObjectMaterial. intros Hm He.
  apply in_or_app. right.
  destruct (material o) as [[ms | m'] |]; [| | destruct Hm].
  - apply in_flat_map in Hm. destruct Hm as ([m' |] & Hms & Hm'); [| destruct Hm'].
    destruct Hm' as [<- | []].
    apply in_flat_map. exists (Some m'). split; assumption.
  - destruct Hm as [<- | []]. exact He.
Qed.

Lemma disposeObject_textures (t : Tile) (o : TileObject) (texture : Texture) :
  In (TextureDispose texture) (disposeObject t o) -> texture ∈ m_ownedTextures t.
Proof.
  unfold disposeObject, shouldDisposeObjectGeometry, shouldDisposeObjectMaterial.
  intros Hin. apply in_app_or in Hin. destruct Hin as [Hin | Hin].
  - apply in_app_or in Hin. destruct Hin as [Hin | Hin].
    + destruct (geometry o); [destruct Hin as [Hin | []]; discriminate Hin | destruct Hin].
    + destruct (geometries o) as [gs |]; [| destruct Hin].
      apply in_map_iff in Hin. destruct Hin as (g & Hg & _). discriminate Hg.
  - destruct (material o) as [[ms | m] |]; [| | destruct Hin].
    + apply in_flat_map in Hin. destruct Hin as ([m |] & _ & Hin); [| destruct Hin].
      apply (disposeMaterial_textures t m texture Hin).
    + apply (disposeMaterial_textures t m texture Hin).
Qed.

Lemma clear_object_events_textures (t : Tile) (texture : Texture) :
  In (TextureDispose texture) (clear_object_events t) -> texture ∈ m_ownedTextures t.
Proof.
  unfold clear_object_events. intros Hin.
  apply in_flat_map in Hin. destruct Hin as (root & _ & Hin).
  apply in_app_or in Hin. destruct Hin as [Hin | Hin].
  - apply in_flat_map in Hin. destruct Hin as (o & _ & Hin).
    apply (disposeObject_textures t o texture Hin).
  - apply (disposeObject_textures t root texture Hin).
Qed.

Lemma clear_textures (s : State) (texture : Texture) :
  In (TextureDispose texture) (trace (clear s)) ->
  In (TextureDispose texture) (trace s) \/ texture ∈ m_ownedTextures (tile s).
Proof.
  rewrite clear_trace_eq. intros Hin.
  apply in_app_or in Hin. destruct Hin as [Hin | Hin]; [left; exact Hin |].
  apply in_app_or in Hin. destruct Hin as [Hin | Hin].
  - right. apply clear_object_events_textures. exact Hin.
  - apply in_app_or in Hin. destruct Hin as [Hin | [Hin | []]]; [| discriminate Hin].
    destruct (m_animatedExtrusionTileHandler (tile s));
      [destruct Hin as [Hin | []]; discriminate Hin | destruct Hin].
Qed.

Ltac no_texture_event :=
  step_state; intros Hin;
  repeat match type of Hin with
         | In _ (_ ++ _) => apply in_app_or in Hin; destruct Hin as [Hin | Hin]
         end;
  first [ left; exact Hin
        | exfalso; cbn [In] in Hin;
          repeat match goal with
                 | H : _ \/ _ |- _ => destruct H as [H | H]
                 end;
          first [discriminate Hin | exact Hin] ].

Ltac same_trace := intros Hin; left; exact Hin.

Lemma run_op_textures (op : Op) (s : State) (texture : Texture) :
  In (TextureDispose texture) (trace (run_op' op s)) ->
  In (TextureDispose texture) (trace s) \/ texture ∈ m_ownedTextures (tile s).
Proof.
  destruct op; unfold run_op.
  - same_trace.
  - same_trace.
  - unfold getResourceInfo. destruct (m_resourceInfo (tile s)); same_trace.
  - same_trace.
  - same_trace.
  - open_state s. unfold addTextElement. crack; no_texture_event.
  - open_state s. unfold removeTextElement. cbv zeta.
    destruct (tegpl_remove _ _) as [[|] st]; crack; no_texture_event.
  - same_trace.
  - same_trace.
  - unfold clearTextElements. destruct (hasTextElements s); same_trace.
  - open_state s. unfold set_visibleArea. crack; no_texture_event.
  - open_state s. unfold set_elevationRange.
    destruct (sameElevationRange _ _ _); [same_trace |].
    destruct mgh; [destruct dt as [[gs [bx |] mh ci ti dtm] |] |]; crack; no_texture_event.
  - open_state s. unfold set_decodedTile.
    destruct decodedTile as [[gs [bx |] mh [ci |] ti [dtm |]] |];
      try destruct gs; try destruct statsEnabled; crack; no_texture_event.
  - same_trace.
  - same_trace.
  - same_trace.
  - same_trace.
  - same_trace.
  - same_trace.
  - apply clear_textures.
  - destruct (m_disposed (tile s)) eqn:Hd.
    + rewrite (dispose_disposed s Hd). intros Hin. left. exact Hin.
    + destruct (dispose_live s Hd) as (s0 & Hdis & Htile & _ & Htrace).
      rewrite Hdis.
      change (In (TextureDispose texture) (trace (clear s0)) ->
              In (TextureDispose texture) (trace s) \/ texture ∈ m_ownedTextures (tile s)).
      intros Hin. apply clear_textures in Hin. rewrite Htile, Htrace in Hin.
      destruct Hin as [Hin | Hin]; [| right; exact Hin].
      apply in_app_or in Hin. destruct Hin as [Hin | Hin]; [left; exact Hin |].
      exfalso. apply in_app_or in Hin. destruct Hin as [Hin | Hin].
      * destruct (m_tileLoader (tile s)); [destruct Hin as [Hin | []]; discriminate Hin |
                                           destruct Hin].
      * destruct (m_tileGeometryLoader (tile s));
          [destruct Hin as [Hin | []]; discriminate Hin | destruct Hin].
Qed.

(** X19: no sequence of calls ever disposes a texture that the tile does not
    own: every texture disposed along the way has been registered with
    [addOwnedTexture] (and is still registered at the end). *)
Theorem only_owned_textures_disposed (s : State) (ops : list Op) (texture : Texture) :
  In (TextureDispose texture) (trace (run_ops' ops s)) ->
  In (TextureDispose texture) (trace s)
  \/ shouldDisposeTexture (tile (run_ops' ops s)) texture = true.
Proof.
  unfold shouldDisposeTexture.
  revert s. induction ops as [| op ops IH]; intros s Hin; [left; exact Hin |].
  change (run_ops' (op :: ops) s) with (run_ops' ops (run_op' op s)) in *.
  destruct (IH _ Hin) as [Hearlier | Howned]; [| right; exact Howned].
  destruct (run_op_textures op s texture Hearlier) as [Hstart | Howned];
    [left; exact Hstart | right].
  apply bool_decide_eq_true_2. apply run_ops_owned_mono.
  destruct (run_op_keeps op s) as (_ & Hsub & _). set_solver.
Qed.

Lemma clear_object_events_incl (t : Tile) (root o : TileObject) (e : Event) :
  In root (objects t) -> In o (traverse root) -> In e (disposeObject t o) ->
  In e (clear_object_events t).
Proof.
  intros Hroot Ho He. unfold clear_object_events.
  apply in_flat_map. exists root. split; [exact Hroot |].
  apply in_or_app. left. apply in_flat_map. exists o. split; assumption.
Qed.

Lemma clear_emits (s : State) (e : Event) :
  In e (clear_object_events (tile s)) -> In e (trace (clear s)).
Proof.
  intros He. rewrite clear_trace_eq. apply in_or_app. right. apply in_or_app. left. exact He.
Qed.

(** X20: [clear] disposes everything it reaches: for every object of the tile
    and every descendant of it, the geometry, every geometry of the
    [geometries] array, every material, and every texture of such a material
    that the tile owns. *)
Theorem clear_disposes_reachable (s : State) (root o : TileObject) :
  In root (objects (tile s)) ->
  In o (traverse root) ->
  (forall g, geometry o = Some g -> In (GeometryDispose g) (trace (clear s)))
  /\ (forall gs g, geometries o = Some gs -> In g gs ->
        In (GeometryDispose g) (trace (clear s)))
  /\ (forall m, In m (materials_of o) ->
        In (MaterialDispose (material_id m)) (trace (clear s))
        /\ (forall texture, In texture (textures_of m) ->
              shouldDisposeTexture (tile s) texture = true ->
              In (TextureDispose texture) (trace (clear s)))).
Proof.
  intros Hroot Ho.
  assert (Hemit : forall e, In e (disposeObject (tile s) o) -> In e (trace (clear s))).
  { intros e He. apply clear_emits. apply (clear_object_events_incl _ root o); assumption. }
  split; [| split].
  - intros g Hg. apply Hemit. unfold disposeObject, shouldDisposeObjectGeometry.
    rewrite Hg. left. reflexivity.
  - intros gs g Hgs Hg. apply Hemit. unfold disposeObject, shouldDisposeObjectGeometry.
    rewrite Hgs. apply in_or_app. left. apply in_or_app. right.
    apply in_map. exact Hg.
  - intros m Hm. destruct (disposeMaterial_events (tile s) m) as [Hmat Htex].
    split.
    + apply Hemit. apply (disposeObject_materials _ o m); assumption.
    + intros texture Hin Howned. apply Hemit.
      apply (disposeObject_materials _ o m); [exact Hm |].
      apply Htex; [exact Hin |]. eapply bool_decide_eq_true_1. exact Howned.
Qed.

Lemma traverse_head (o : TileObject) : exists rest, traverse o = o :: rest.
Proof. destruct o. eexists. reflexivity. Qed.

(** X21: [clear] disposes every root object twice: once when the traversal
    visits the root itself and once more after the traversal. *)
Theorem clear_disposes_roots_twice (s : State) (root : TileObject) :
  In root (objects (tile s)) ->
  exists before between after,
    trace (clear s)
    = trace s ++ before ++ disposeObject (tile s) root ++ between
      ++ disposeObject (tile s) root ++ after.
Proof.
  intros Hroot. apply in_split in Hroot. destruct Hroot as (pre & post & Hobjects).
  destruct (traverse_head root) as [rest Hrest].
  rewrite clear_trace_eq. unfold clear_object_events.
  set (per_root := fun rootObject : TileObject =>
                     flat_map (disposeObject (tile s)) (traverse rootObject)
                     ++ disposeObject (tile s) rootObject).
  exists (flat_map per_root pre).
  exists (flat_map (disposeObject (tile s)) rest).
  exists (flat_map per_root post
          ++ match m_animatedExtrusionTileHandler (tile s) with
             | Some h => [AnimatedExtrusionTileHandlerDispose h]
             | None => []
             end
          ++ [TextStyleCacheClear]).
  rewrite Hobjects, flat_map_app. cbn [flat_map]. subst per_root. cbv beta.
  rewrite Hrest. cbn [flat_map].
  rewrite <- !app_assoc. reflexivity.
Qed.

(** ** Resource information, continued *)


Lemma count_visible (os : list TileObject) (n : Z) (acc : MemoryUsage * gmap string bool) :
  fst (fold_left
         (fun '(n, acc) object =>
            ((if visible object then n + 1 else n), estimateObject3dSize object acc))
         os (n, acc))
  = n + Z.of_nat (length (List.filter visible os)).
Proof.
  revert n acc. induction os as [| o os IH]; intros n acc.
  - cbn. lia.
  - cbn [fold_left List.filter]. rewrite IH.
    destruct (visible o); cbn [length]; lia.
Qed.

(** X23: [num3dObjects] is the number of objects in the [objects] list that are
    flagged visible; descendants are not counted.  It lies between 0 and the
    length of the list. *)
Theorem num3dObjects_counts_visible (s : State) :
  num3dObjects (resourceInfoOf' s)
  = Z.of_nat (length (List.filter visible (objects (tile s))))
  /\ 0 <= num3dObjects (resourceInfoOf' s) <= Z.of_nat (length (objects (tile s))).
Proof.
  assert (Hcount :
            num3dObjects (resourceInfoOf' s)
            = Z.of_nat (length (List.filter visible (objects (tile s))))).
  { unfold resourceInfoOf.
    pose proof (count_visible (objects (tile s)) 0 (mkMemoryUsage 0 0, ∅)) as Hfold.
    destruct (fold_left _ _ _) as [n [agg vis]]. cbn [fst] in Hfold.
    cbn [num3dObjects]. rewrite Hfold. lia. }
  split; [exact Hcount |]. rewrite Hcount.
  pose proof (List.filter_length_le visible (objects (tile s))). lia.
Qed.

(** X24: the decoded payload enters the resource information through its byte
    count alone: removing the payload lowers the computed heap size by the
    [numBytes] of its tile info (by nothing when there is none) and leaves the
    GPU size and the two counts as they are. *)
Theorem resourceInfo_payload_bytes (s : State) :
  heapSize (resourceInfoOf' s)
  = heapSize (resourceInfoOf' (removeDecodedTile s))
    + match m_decodedTile (tile s) with
      | Some d => match dt_tileInfo d with Some info => numBytes info | None => 0 end
      | None => 0
      end
  /\ gpuSize (resourceInfoOf' s) = gpuSize (resourceInfoOf' (removeDecodedTile s))
  /\ num3dObjects (resourceInfoOf' s) = num3dObjects (resourceInfoOf' (removeDecodedTile s))
  /\ numTextElements (resourceInfoOf' s)
     = numTextElements (resourceInfoOf' (removeDecodedTile s)).
Proof.
  open_state s. unfold resourceInfoOf, heap_read. step_state.
  destruct (fold_left _ _ _) as [n [agg vis]].
  destruct dt as [[gs bx mh ci [info |] dtm] |]; step_state;
    cbn [heapSize gpuSize num3dObjects numTextElements mu_heapSize mu_gpuSize];
    repeat split; lia.
Qed.

(** ** Loader hints and loading *)

Lemma set_visibleArea_trace (area : num) (s : State) :
  trace (set_visibleArea area s)
  = trace s ++ match m_tileLoader (tile s) with
               | Some l => [TileLoaderUpdatePriority l area]
               | None => []
               end.
Proof.
  open_state s. unfold set_visibleArea.
  destruct tl; step_state; rewrite ?app_nil_r; reflexivity.
Qed.

Lemma dispose_drops_loaders (s : State) :
  m_disposed (tile s) = false ->
  m_tileLoader (tile (dispose s)) = None
  /\ m_tileGeometryLoader (tile (dispose s)) = None
  /\ m_forceHasGeometry (tile (dispose s)) = m_forceHasGeometry (tile s)
  /\ objects (tile (dispose s)) = []
  /\ m_decodedTile (tile (dispose s)) = m_decodedTile (tile s).
Proof.
  intros Hd. rewrite (dispose_tile s Hd). cbv zeta.
  destruct (preparedTextPaths _), (hasTextElements s); repeat split.
Qed.

(** X25: the visible area is stored and passed on to the loader exactly when
    the tile has one; after [dispose] of a tile that was not disposed yet the
    loader is gone, so a new visible area reaches no loader. *)
Theorem set_visibleArea_forwards (area : num) (s : State) :
  m_visibleArea (tile (set_visibleArea area s)) = area
  /\ trace (set_visibleArea area s)
     = trace s ++ match m_tileLoader (tile s) with
                  | Some l => [TileLoaderUpdatePriority l area]
                  | None => []
                  end
  /\ (m_disposed (tile s) = false ->
      trace (set_visibleArea area (dispose s)) = trace (dispose s)).
Proof.
  split; [| split].
  - unfold set_visibleArea. cbv zeta.
    destruct (m_tileLoader _); reflexivity.
  - apply set_visibleArea_trace.
  - intros Hd. rewrite set_visibleArea_trace.
    destruct (dispose_drops_loaders s Hd) as (Hloader & _).
    rewrite Hloader. apply app_nil_r.
Qed.

Section GeometryLoader.

(** What the tile reads of a [TileGeometryLoader]. *)
Variable loader_basicGeometryLoaded : TileGeometryLoader -> bool.
Variable loader_allGeometryLoaded : TileGeometryLoader -> bool.
Variable loader_isFinished : TileGeometryLoader -> bool.

(** X26: after [dispose] of a tile that was not disposed yet there are no
    objects and no geometry loader, so [hasGeometry], [basicGeometryLoaded] and
    [allGeometryLoaded] all report the override when one is set, and false
    otherwise. *)
Theorem geometryLoaded_after_dispose (s : State) :
  m_disposed (tile s) = false ->
  hasGeometry (tile (dispose s)) = default false (m_forceHasGeometry (tile s))
  /\ basicGeometryLoaded loader_basicGeometryLoaded loader_isFinished (tile (dispose s))
     = default false (m_forceHasGeometry (tile s))
  /\ allGeometryLoaded loader_allGeometryLoaded loader_isFinished (tile (dispose s))
     = default false (m_forceHasGeometry (tile s)).
Proof.
  intros Hd.
  destruct (dispose_drops_loaders s Hd) as (_ & Hgl & Hforce & Hobjects & _).
  unfold basicGeometryLoaded, allGeometryLoaded, hasGeometry.
  rewrite Hgl, Hforce, Hobjects.
  destruct (m_forceHasGeometry (tile s)); repeat split.
Qed.

End GeometryLoader.

(** X27: a settlement of the load promise other than fulfilled with [Ready]
    leaves the tile as it is, and an error is logged unless the promise was
    rejected with [Canceled] or [Failed]. *)
Theorem load_settled_otherwise (settlement : Settlement) (s : State) :
  (forall d, settlement <> Fulfilled Ready d) ->
  fst (load_settled' settlement s) = s
  /\ (snd (load_settled' settlement s) = false
      <-> settlement = Rejected Canceled \/ settlement = Rejected Failed).
Proof.
  intros Hnot.
  destruct settlement as [st d | st |]; [destruct st | destruct st |];
    try (exfalso; apply (Hnot d); reflexivity);
    cbn; (split; [reflexivity |]); split;
    solve [ intros H; discriminate H
          | intros [H | H]; discriminate H
          | intros _; auto ].
Qed.

(** X28: [dispose] and a load in flight.  After [dispose] of a tile that was not
    disposed yet [load] starts nothing, the loader being gone.  But the
    callback of a load started before does not look at the disposed mark: when
    the promise is fulfilled with [Ready] after the tile was disposed, the
    payload is assigned to the disposed tile and an update of the data source
    is requested. *)
Theorem load_and_dispose (d : DecodedTile) (s : State) :
  m_disposed (tile s) = false ->
  load (dispose s) = None
  /\ m_disposed (tile (fst (load_settled' (Fulfilled Ready (Some d)) (dispose s)))) = true
  /\ m_decodedTile (tile (fst (load_settled' (Fulfilled Ready (Some d)) (dispose s))))
     = Some d
  /\ In DataSourceRequestUpdate
       (trace (fst (load_settled' (Fulfilled Ready (Some d)) (dispose s)))).
Proof.
  intros Hd.
  destruct (dispose_drops_loaders s Hd) as (Hloader & _).
  pose proof (dispose_marks (dispose s)) as Hmark.
  rewrite (dispose_disposed _ (dispose_marks s)) in Hmark.
  split; [exact Hloader |].
  change (fst (load_settled' (Fulfilled Ready (Some d)) (dispose s)))
    with (set_decodedTile' (Some d) (dispose s)).
  generalize dependent (dispose s). intros s1 _ Hmark. clear Hd.
  open_state s1. change (dis = true) in Hmark. subst dis.
  destruct d as [gs bx mh ci ti dtm]. unfold set_decodedTile.
  destruct gs, bx, ci, dtm; try destruct statsEnabled; step_state;
    (split; [reflexivity |]); (split; [reflexivity |]);
    apply in_or_app; right; left; reflexivity.
Qed.

End TileProperties.

(** * Scenarios on the concrete instance *)

Import Example.

(** The spec's scenario for C1: requested at frame 10, the tile is visible at
    frame 11 and not at frame 12. *)
Lemma isVisible_iff_witness :
  frameNumLastRequested requestedAt10 = 11 - 1
  /\ isVisible 11 requestedAt10 = true
  /\ isVisible 12 requestedAt10 = false.
Proof.
  destruct (isVisible_iff requestedAt10 11) as (_ & Hnear & _).
  destruct (isVisible_iff requestedAt10 12) as (_ & _ & Hfar).
  split; [reflexivity |].
  split; [apply Hnear; left; reflexivity | apply Hfar; vm_compute; discriminate].
Defined.

Lemma isVisible_set_get_witness :
  1 <= 5
  /\ isVisible 5 (set_isVisible 5 true (tile s0)) = true
  /\ isVisible 9 (set_isVisible 5 false (tile s0)) = false.
Proof.
  assert (H5 : 1 <= 5) by lia.
  destruct (isVisible_set_get (tile s0) 5 H5) as (_ & Hon & _ & Hoff).
  split; [exact H5 |]. split; [exact Hon |]. apply Hoff. lia.
Defined.

(** C4 at the failing input: a new tile disposed while the map view is at
    frame 1 still reads as visible. *)
Lemma dispose_isVisible_witness :
  m_disposed (tile s0) = false
  /\ frameNumLastRequested (tile (dispose s0)) = 0
  /\ isVisible 1 (tile (dispose s0)) = true.
Proof.
  assert (Hlive : m_disposed (tile s0) = false) by reflexivity.
  destruct (dispose_isVisible s0 1 Hlive) as [Hzero Hvis].
  split; [exact Hlive |]. split; [exact Hzero | exact Hvis].
Defined.

(** A decoded tile that also has a loader. *)
Lemma dispose_releases_loader_witness :
  m_disposed (tile withLoader) = false
  /\ m_tileLoader (tile (dispose withLoader)) = None
  /\ In (TileLoaderCancel 7%nat) (trace (dispose withLoader))
  /\ m_decodedTile (tile (dispose withLoader)) = Some emptyPayload.
Proof.
  assert (Hlive : m_disposed (tile withLoader) = false) by reflexivity.
  destruct (dispose_releases_loader id Z.add project false withLoader Hlive)
    as (Hloader & _ & Hcancel & Hpayload & _).
  split; [exact Hlive |]. split; [exact Hloader |].
  split; [apply Hcancel; reflexivity | exact Hpayload].
Defined.

(** C8 as stated fails: the decoded payload assigned before [dispose] is still
    referenced after it. *)
Lemma dispose_keeps_decodedTile :
  m_decodedTile (tile decoded) = Some emptyPayload
  /\ ~ (m_tileLoader (tile (dispose decoded)) = None
        /\ m_decodedTile (tile (dispose decoded)) = None).
Proof.
  split; [reflexivity |].
  intros [_ Hnone]. vm_compute in Hnone. discriminate Hnone.
Qed.

Lemma decoded_boundingBox_authoritative_witness :
  dt_boundingBox emptyPayload = Some payloadBox
  /\ m_boundingBox (tile decoded) = payloadBox
  /\ exists s',
       set_elevationRanges id Z.add Z.eqb project
         [mkElevationRange 10 250 (Some Approximate); mkElevationRange 12 240 (Some Final)]
         decoded = Some s'
       /\ m_boundingBox (tile s') = payloadBox.
Proof.
  assert (Hbox : dt_boundingBox emptyPayload = Some payloadBox) by reflexivity.
  destruct (decoded_boundingBox_authoritative id Z.add Z.eqb project false
              s0 emptyPayload payloadBox Hbox) as (Hb & _ & Hrs).
  split; [exact Hbox |]. split; [exact Hb | apply Hrs].
Defined.

Lemma set_elevationRange_same_witness :
  Z.eqb (minElevation sameRange) (minElevation (m_elevationRange (tile s0))) = true
  /\ Z.eqb (maxElevation sameRange) (maxElevation (m_elevationRange (tile s0))) = true
  /\ calculationStatus sameRange = calculationStatus (m_elevationRange (tile s0))
  /\ exSetElevationRange sameRange s0 = Returns s0.
Proof.
  assert (Hmin : Z.eqb (minElevation sameRange) (minElevation (m_elevationRange (tile s0))) = true)
    by reflexivity.
  assert (Hmax : Z.eqb (maxElevation sameRange) (maxElevation (m_elevationRange (tile s0))) = true)
    by reflexivity.
  assert (Hst : calculationStatus sameRange = calculationStatus (m_elevationRange (tile s0)))
    by reflexivity.
  destruct (set_elevationRange_same id Z.add Z.eqb project sameRange s0 Hmin Hmax Hst)
    as (Hsame & _).
  split; [exact Hmin |]. split; [exact Hmax |]. split; [exact Hst | exact Hsame].
Defined.

Lemma hasGeometry_after_empty_payload_witness :
  dt_geometries emptyPayload = []
  /\ hasGeometry (tile decoded) = true
  /\ hasGeometry (tile (exRunOps keepingOps decoded)) = true.
Proof.
  assert (Hempty : dt_geometries emptyPayload = []) by reflexivity.
  assert (Hops : Forall (fun op : ExOp => forall v, op = OpForceHasGeometry v -> v = Some true)
                   keepingOps).
  { repeat constructor; intros v Hv; first [discriminate Hv | injection Hv as <-; reflexivity]. }
  destruct (hasGeometry_after_empty_payload id Z.add Z.eqb project estimate false
              s0 emptyPayload keepingOps Hempty Hops) as [Hnow Hlater].
  split; [exact Hempty |]. split; [exact Hnow | exact Hlater].
Defined.

(** C7 as stated fails: [forceHasGeometry(false)] ends it, with no call of
    [forceHasGeometry(undefined)]. *)
Lemma forceHasGeometry_false_ends_it :
  dt_geometries emptyPayload = []
  /\ hasGeometry (tile decoded) = true
  /\ Forall (fun op => op <> OpForceHasGeometry None) forcingFalse
  /\ hasGeometry (tile (exRunOps forcingFalse decoded)) = false.
Proof.
  split; [reflexivity |]. split; [reflexivity |].
  split; [| reflexivity].
  repeat constructor. intros Heq. discriminate Heq.
Qed.

(** A tile whose resource information has been read once. *)
Lemma resourceInfo_invalidation_witness :
  m_resourceInfo (tile readOnce) = Some infoBefore
  /\ fst (getResourceInfo estimate (addTextElement (label 1 5) readOnce)) = infoBefore
  /\ fst (getResourceInfo estimate (exSetDecodedTile (Some emptyPayload) readOnce))
     = resourceInfoOf estimate (exSetDecodedTile (Some emptyPayload) readOnce).
Proof.
  assert (Hcached : m_resourceInfo (tile readOnce) = Some infoBefore) by reflexivity.
  destruct (resourceInfo_invalidation id Z.add project estimate false readOnce)
    as (Hset & _ & _ & _ & Hkeep).
  destruct (Hkeep infoBefore Hcached) as (Hadd & _).
  split; [exact Hcached |]. split; [apply Hadd | apply Hset].
Defined.

(** C2 as stated fails: the record read before [addTextElement] is returned
    again after it, and it is not the record of the tile with the new label. *)
Lemma getResourceInfo_stale_after_addTextElement :
  labelled = addTextElement (label 1 5) readOnce
  /\ fst (getResourceInfo estimate labelled) = infoBefore
  /\ numTextElements (fst (getResourceInfo estimate labelled)) = 0
  /\ numTextElements (resourceInfoOf estimate labelled) = 1
  /\ fst (getResourceInfo estimate labelled) <> resourceInfoOf estimate labelled.
Proof.
  split; [reflexivity |].
  split; [reflexivity |]. split; [reflexivity |]. split; [vm_compute; reflexivity |].
  intros Heq. apply (f_equal numTextElements) in Heq. vm_compute in Heq. discriminate Heq.
Qed.

Lemma addTextElement_clones_after_adding_witness :
  m_textElementsChanged (tile consumed) = Some false
  /\ heap consumed !! textElementGroups consumed = Some tegpl_new
  /\ textElementGroups firstAdd <> textElementGroups consumed
  /\ heap firstAdd !! textElementGroups consumed = Some (tegpl_add (label 1 5) tegpl_new)
  /\ textElementGroups secondAdd = textElementGroups firstAdd
  /\ heap secondAdd !! textElementGroups consumed = Some (tegpl_add (label 1 5) tegpl_new).
Proof.
  assert (Hflag : m_textElementsChanged (tile consumed) = Some false) by reflexivity.
  assert (Hstore : heap consumed !! textElementGroups consumed = Some tegpl_new)
    by reflexivity.
  destruct (addTextElement_clones_after_adding consumed (label 1 5) (label 2 5)
              tegpl_new Hflag Hstore)
    as (Hne & _ & Hold & _ & _ & Hsame & _ & Hold2 & _).
  split; [exact Hflag |]. split; [exact Hstore |]. split; [exact Hne |].
  split; [exact Hold |]. split; [exact Hsame | exact Hold2].
Defined.

(** C3 as stated fails: the store a reader holds when [addTextElement] is
    called after a reset has the new label in it afterwards. *)
Lemma addTextElement_changes_the_store_read_before :
  m_textElementsChanged (tile consumed) = Some false
  /\ tegpl_count (heap_read (textElementGroups consumed) consumed) = 0
  /\ tegpl_count (heap_read (textElementGroups consumed) firstAdd) = 1
  /\ heap_read (textElementGroups consumed) firstAdd
     <> heap_read (textElementGroups consumed) consumed.
Proof.
  split; [reflexivity |].
  split; [vm_compute; reflexivity |]. split; [vm_compute; reflexivity |].
  intros Heq. apply (f_equal tegpl_count) in Heq. vm_compute in Heq. discriminate Heq.
Qed.

(** ** Scenarios for the further properties *)

Lemma getFeatureDataSize_floor_witness :
  no_element (starts bareFeatureData)
  /\ no_element (objInfos bareFeatureData)
  /\ getFeatureDataSize bareFeatureData = 100.
Proof.
  assert (Hs : no_element (starts bareFeatureData)) by (right; reflexivity).
  assert (Ho : no_element (objInfos bareFeatureData)) by (left; reflexivity).
  destruct (getFeatureDataSize_floor bareFeatureData) as (_ & _ & Hiff).
  split; [exact Hs |]. split; [exact Ho |]. apply Hiff. split; assumption.
Defined.

Lemma invisible_stays_invisible_witness :
  12 <= 20
  /\ isVisible 12 (tile requested10) = false
  /\ isVisible 20 (tile (exRunOps quietOps requested10)) = false.
Proof.
  assert (Hquiet : Forall (fun op : ExOp =>
                             (forall n v, op <> OpSetIsVisible n v) /\ op <> OpDispose)
                     quietOps).
  { repeat constructor; intros; discriminate. }
  assert (Hle : 12 <= 20) by lia.
  assert (Hnot : isVisible 12 (tile requested10) = false) by reflexivity.
  destruct (invisible_stays_invisible id Z.add Z.eqb project estimate false
              requested10 quietOps 12 20 Hquiet Hle Hnot) as [_ Hlater].
  split; [exact Hle |]. split; [exact Hnot | exact Hlater].
Defined.

Lemma disposed_stays_disposed_witness :
  m_disposed (tile (dispose s0)) = true
  /\ m_disposed (tile (exRunOps revivingOps (dispose s0))) = true.
Proof.
  assert (Hd : m_disposed (tile (dispose s0)) = true) by reflexivity.
  split; [exact Hd |].
  apply (disposed_stays_disposed id Z.add Z.eqb project estimate false
           (dispose s0) revivingOps Hd).
Defined.

Lemma ownedTexture_stays_owned_witness :
  shouldDisposeTexture (tile furnished) 3%nat = true
  /\ shouldDisposeTexture (tile (exRunOps [OpClear; OpDispose] furnished)) 3%nat = true.
Proof.
  assert (Ho : shouldDisposeTexture (tile furnished) 3%nat = true) by (vm_compute; reflexivity).
  destruct (ownedTexture_stays_owned id Z.add Z.eqb project estimate false
              furnished 3%nat [OpClear; OpDispose]) as [_ Hstays].
  split; [exact Ho | apply Hstays; exact Ho].
Defined.

Lemma set_elevationRange_recomputes_witness :
  sameElevationRange Z.eqb higherRange (m_elevationRange (tile elevated)) = false
  /\ m_maxGeometryHeight (tile elevated) = Some 30
  /\ decodedBoundingBox_undefined (tile elevated) = true
  /\ exists s', exSetElevationRange higherRange elevated = Returns s'
       /\ altitude (northEast (geoBox (tile s'))) = Some (250 + 30)
       /\ boundingBox (tile s') = project (geoBox (tile s')) (boundingBox (tile elevated)).
Proof.
  assert (Hdiff : sameElevationRange Z.eqb higherRange (m_elevationRange (tile elevated))
                  = false) by reflexivity.
  assert (Hheight : m_maxGeometryHeight (tile elevated) = Some 30) by reflexivity.
  assert (Hbox : decodedBoundingBox_undefined (tile elevated) = true) by reflexivity.
  destruct (set_elevationRange_recomputes id Z.add Z.eqb project higherRange elevated 30
              Hdiff Hheight Hbox) as (s' & Hret & _ & _ & Halt & Hbb & _).
  split; [exact Hdiff |]. split; [exact Hheight |]. split; [exact Hbox |].
  exists s'. split; [exact Hret |]. split; [exact Halt | exact Hbb].
Defined.

Lemma set_decodedTile_without_box_witness :
  dt_boundingBox plainPayload = None
  /\ m_maxGeometryHeight (tile elevated) = Some 30
  /\ center (tile elevated) = center (tile s0).
Proof.
  assert (Hnone : dt_boundingBox plainPayload = None) by reflexivity.
  destruct (set_decodedTile_without_box id Z.add project false plainPayload s0 Hnone)
    as (Hheight & _ & _ & Hcenter & _).
  split; [exact Hnone |]. split; [exact Hheight | exact Hcenter].
Defined.

Lemma set_decodedTile_with_box_center_witness :
  dt_boundingBox emptyPayload = Some payloadBox
  /\ center (tile decoded) = position payloadBox.
Proof.
  assert (Hbox : dt_boundingBox emptyPayload = Some payloadBox) by reflexivity.
  destruct (set_decodedTile_with_box_center id Z.add project false
              emptyPayload payloadBox s0 Hbox) as (Hcenter & _).
  split; [exact Hbox | exact Hcenter].
Defined.

Lemma set_decodedTile_with_geometries_witness :
  dt_geometries plainPayload <> []
  /\ hasGeometry (tile elevated) = hasGeometry (tile s0).
Proof.
  assert (Hgeo : dt_geometries plainPayload <> []) by discriminate.
  destruct (set_decodedTile_with_geometries id Z.add project false plainPayload s0 Hgeo)
    as [_ Hsame].
  split; [exact Hgeo | exact Hsame].
Defined.

Lemma addTextElement_flag_undefined_witness :
  m_textElementsChanged (tile s0) = None
  /\ textElementsChanged (tile s0) = false
  /\ textElementGroups (addTextElement (label 1 5) s0) = textElementGroups s0.
Proof.
  assert (Hflag : m_textElementsChanged (tile s0) = None) by reflexivity.
  destruct (addTextElement_flag_undefined s0 (label 1 5) Hflag) as (Hreads & Hsame & _).
  split; [exact Hflag |]. split; [exact Hreads | exact Hsame].
Defined.

Lemma removeTextElement_not_found_witness :
  tegpl_remove (label 9 9) (heap_read (textElementGroups s0) s0) = (false, tegpl_new)
  /\ removeTextElement (label 9 9) s0 = (false, s0).
Proof.
  assert (Hrem : tegpl_remove (label 9 9) (heap_read (textElementGroups s0) s0)
                 = (false, tegpl_new)) by reflexivity.
  split; [exact Hrem |].
  apply (removeTextElement_not_found s0 (label 9 9) tegpl_new Hrem).
Defined.

Lemma removeTextElement_clones_after_removing_witness :
  m_textElementsChanged (tile consumedAgain) = Some false
  /\ fst (removeTextElement (label 1 5) consumedAgain) = true
  /\ textElementGroups (snd (removeTextElement (label 1 5) consumedAgain))
     <> textElementGroups consumedAgain.
Proof.
  assert (Hflag : m_textElementsChanged (tile consumedAgain) = Some false) by reflexivity.
  assert (Hstore : heap consumedAgain !! textElementGroups consumedAgain
                   = Some (tegpl_add (label 1 5) tegpl_new)) by (vm_compute; reflexivity).
  assert (Hrem : tegpl_remove (label 1 5) (tegpl_add (label 1 5) tegpl_new)
                 = (true, snd (tegpl_remove (label 1 5) (tegpl_add (label 1 5) tegpl_new))))
    by (vm_compute; reflexivity).
  destruct (removeTextElement_clones_after_removing consumedAgain (label 1 5) _ _
              Hflag Hstore Hrem) as (Htrue & Hne & _).
  split; [exact Hflag |]. split; [exact Htrue | exact Hne].
Defined.

Lemma clearTextElements_cases_witness :
  hasTextElements blocked = false
  /\ m_pathBlockingElements (tile (clearTextElements blocked)) = [4%nat]
  /\ hasTextElements firstAdd = true
  /\ hasTextElements (clearTextElements firstAdd) = false.
Proof.
  assert (Hnone : hasTextElements blocked = false) by (vm_compute; reflexivity).
  assert (Hsome : hasTextElements firstAdd = true) by (vm_compute; reflexivity).
  destruct (clearTextElements_cases blocked) as [Hnoop _].
  destruct (clearTextElements_cases firstAdd) as [_ Hclears].
  destruct (Hclears Hsome) as (_ & _ & _ & _ & Hempty).
  split; [exact Hnone |]. split; [rewrite (Hnoop Hnone); reflexivity |].
  split; [exact Hsome | exact Hempty].
Defined.

Lemma only_owned_textures_disposed_witness :
  In (TextureDispose 3%nat) (trace (exRunOps [OpDispose] furnished))
  /\ ~ In (TextureDispose 3%nat) (trace furnished)
  /\ shouldDisposeTexture (tile (exRunOps [OpDispose] furnished)) 3%nat = true.
Proof.
  assert (Hin : In (TextureDispose 3%nat) (trace (exRunOps [OpDispose] furnished))).
  { vm_compute. right. left. reflexivity. }
  assert (Hnot : ~ In (TextureDispose 3%nat) (trace furnished)) by (intros []).
  destruct (only_owned_textures_disposed id Z.add Z.eqb project estimate false
              furnished [OpDispose] 3%nat Hin) as [Hbefore | Howned].
  - destruct (Hnot Hbefore).
  - split; [exact Hin |]. split; [exact Hnot | exact Howned].
Defined.

Lemma clear_disposes_reachable_witness :
  In texturedObject (objects (tile furnished))
  /\ In texturedObject (traverse texturedObject)
  /\ In (GeometryDispose 11%nat) (trace (clear furnished))
  /\ In (MaterialDispose 21%nat) (trace (clear furnished))
  /\ In (TextureDispose 3%nat) (trace (clear furnished)).
Proof.
  assert (Hroot : In texturedObject (objects (tile furnished))) by (left; reflexivity).
  assert (Hself : In texturedObject (traverse texturedObject)) by (left; reflexivity).
  destruct (clear_disposes_reachable furnished texturedObject texturedObject Hroot Hself)
    as (Hgeo & _ & Hmat).
  destruct (Hmat texturedMaterial (or_introl eq_refl)) as [Hm Htex].
  split; [exact Hroot |]. split; [exact Hself |].
  split; [apply Hgeo; reflexivity |]. split; [exact Hm |].
  apply Htex; [left; reflexivity | vm_compute; reflexivity].
Defined.

Lemma clear_disposes_roots_twice_witness :
  In texturedObject (objects (tile furnished))
  /\ exists before between after,
       trace (clear furnished)
       = trace furnished ++ before ++ disposeObject (tile furnished) texturedObject
         ++ between ++ disposeObject (tile furnished) texturedObject ++ after.
Proof.
  assert (Hroot : In texturedObject (objects (tile furnished))) by (left; reflexivity).
  split; [exact Hroot |].
  apply (clear_disposes_roots_twice furnished texturedObject Hroot).
Defined.

Lemma set_visibleArea_forwards_witness :
  m_disposed (tile withLoader) = false
  /\ trace (set_visibleArea 5 withLoader)
     = trace withLoader ++ [TileLoaderUpdatePriority 7%nat 5]
  /\ trace (set_visibleArea 5 (dispose withLoader)) = trace (dispose withLoader).
Proof.
  assert (Hlive : m_disposed (tile withLoader) = false) by reflexivity.
  destruct (set_visibleArea_forwards 5 withLoader) as (_ & Hforward & Hafter).
  split; [exact Hlive |]. split; [exact Hforward | apply Hafter; exact Hlive].
Defined.

Lemma geometryLoaded_after_dispose_witness :
  m_disposed (tile decoded) = false
  /\ hasGeometry (tile (dispose decoded)) = true
  /\ hasGeometry (tile (dispose s0)) = false.
Proof.
  assert (Hlive : m_disposed (tile decoded) = false) by reflexivity.
  assert (Hlive0 : m_disposed (tile s0) = false) by reflexivity.
  destruct (geometryLoaded_after_dispose (fun _ => false) (fun _ => false) (fun _ => false)
              decoded Hlive) as (Hforced & _).
  destruct (geometryLoaded_after_dispose (fun _ => false) (fun _ => false) (fun _ => false)
              s0 Hlive0) as (Hplain & _).
  split; [exact Hlive |]. split; [exact Hforced | exact Hplain].
Defined.

Lemma load_settled_otherwise_witness :
  (forall d, @Rejected Z Canceled <> Fulfilled Ready d)
  /\ exLoadSettled (Rejected Canceled) s0 = (s0, false).
Proof.
  assert (Hnot : forall d, @Rejected Z Canceled <> Fulfilled Ready d)
    by (intros d H; discriminate H).
  destruct (load_settled_otherwise id Z.add project false (Rejected Canceled) s0 Hnot)
    as [Hsame Hlog].
  split; [exact Hnot |].
  unfold exLoadSettled.
  rewrite (surjective_pairing (load_settled id Z.add project false (Rejected Canceled) s0)).
  rewrite Hsame, (proj2 Hlog (or_introl eq_refl)). reflexivity.
Defined.

Lemma load_and_dispose_witness :
  m_disposed (tile withLoader) = false
  /\ load (dispose withLoader) = None
  /\ m_decodedTile
       (tile (fst (exLoadSettled (Fulfilled Ready (Some plainPayload)) (dispose withLoader))))
     = Some plainPayload.
Proof.
  assert (Hlive : m_disposed (tile withLoader) = false) by reflexivity.
  destruct (load_and_dispose id Z.add project false plainPayload withLoader Hlive)
    as (Hnone & _ & Hassigned & _).
  split; [exact Hlive |]. split; [exact Hnone | exact Hassigned].
Defined.
